(** * Statistical stability estimation: the two SPC scripts

    A shallow embedding of [src/test55.py] and [src/histogramm.py]: the robust
    sigma/median estimator [get_robust_sigma_and_mu], the stability indices
    computed inside the snapshot functions ([plot_histogramm],
    [plot_snapshot_analysis]) and the rolling trend of
    [plot_timeline_analysis].

    Numbers.  A numpy [float64] is modelled as an extended rational with a
    not-a-number: [NaN], the two infinities and the finite values, the latter
    as rationals.  The special values follow IEEE 754 (what numpy does on a
    division by zero, on [inf - inf], on any operation with [nan]), and so
    does overflow: an operation whose exact result would round to a
    magnitude beyond the largest double gives an infinity.  Below that
    bound a result is kept exact:
    rounding to the 53-bit significand and the sign of zero are not
    modelled, so the theorems on computed values are kept to what rounding
    to nearest preserves (which branch is taken, definedness, order and
    sign), and none states an exact value of a rounded computation.

    Libraries.  [numpy]'s functions are modelled from their documented
    behaviour ([nanquantile] with the default linear interpolation, [median],
    [nanmedian], [std] with [ddof]).  The [fitter]/[scipy.stats] pair, which
    selects and evaluates a parametric distribution, and the square root of a
    rational are interface parameters (class [Libraries]).

    Rendering (matplotlib, seaborn) is a sink: the plotting functions are
    embedded up to the values they hand to it. *)

From Stdlib Require Import String List ZArith QArith Qabs Qround Lia Lqa Bool.
From Stdlib Require Import PeanoNat Sorted Permutation.
Import ListNotations.

Set Implicit Arguments.

(* ================================================================== *)
(** * Python outcomes: a value or a raised exception *)

Inductive exn : Type :=
| KeyError (key : string)
| IndexError
| FitterError.

Inductive outcome (A : Type) : Type :=
| Ok (a : A)
| Raises (e : exn).

Arguments Ok {A} a.
Arguments Raises {A} e.

Definition bind {A B : Type} (m : outcome A) (k : A -> outcome B) : outcome B :=
  match m with
  | Ok a => k a
  | Raises e => Raises e
  end.

Declare Scope py_scope.
Delimit Scope py_scope with py.
Notation "x <- m ;; k" := (bind m (fun x => k))
  (at level 61, m at next level, right associativity) : py_scope.
Notation "' p <- m ;; k" := (bind m (fun x => match x with p => k end))
  (at level 61, p pattern, m at next level, right associativity) : py_scope.

(** [d[key]] on a dict that may lack the key. *)
Definition getitem {A : Type} (key : string) (field : option A) : outcome A :=
  match field with
  | Some v => Ok v
  | None => Raises (KeyError key)
  end.

(** [seq[i]] for an in-range, non-negative position. *)
Definition getindex {A : Type} (l : list A) (i : nat) : outcome A :=
  match nth_error l i with
  | Some v => Ok v
  | None => Raises IndexError
  end.

(** [l[a:b]] for non-negative bounds. *)
Definition slice {A : Type} (a b : nat) (l : list A) : list A :=
  skipn a (firstn b l).

(** [range(start, stop, step)] for a positive step. *)
Fixpoint range_from (fuel start stop step : nat) : list nat :=
  match fuel with
  | O => []
  | S fuel' =>
      if start <? stop
      then start :: range_from fuel' (start + step) stop step
      else []
  end.

Definition py_range (start stop step : nat) : list nat :=
  range_from stop start stop step.

(** A [for] loop whose body may raise, threading the loop's variables. *)
Fixpoint for_loop {S I : Type} (body : S -> I -> outcome S) (st : S) (items : list I)
  : outcome S :=
  match items with
  | [] => Ok st
  | i :: rest => bind (body st i) (fun st' => for_loop body st' rest)
  end.

(* ================================================================== *)
(** * float64 *)

Inductive float64 : Type :=
| NaN
| Inf (neg : bool)
| Fin (q : Q).

Definition Qneg_bool (q : Q) : bool := negb (Qle_bool 0 q).
Definition Qzero_bool (q : Q) : bool := Qeq_bool q 0.

Definition np_isnan (x : float64) : bool :=
  match x with NaN => true | _ => false end.

Definition np_abs (x : float64) : float64 :=
  match x with
  | NaN => NaN
  | Inf _ => Inf false
  | Fin q => Fin (Qabs q)
  end.

(** The largest finite double, [(2 - 2^-52) * 2^1023], and the magnitude
    from which rounding to nearest gives an infinity, [(2 - 2^-53) * 2^1023]. *)
Definition max_float : Q := inject_Z (2 ^ 1024 - 2 ^ 971).
Definition overflow_bound : Q := inject_Z (2 ^ 1024 - 2 ^ 970).

(** The result of an operation on finite values: the infinity of its sign
    when its exact value reaches [overflow_bound], and the exact value
    otherwise. *)
Definition overflow (q : Q) : float64 :=
  if Qle_bool overflow_bound (Qabs q) then Inf (Qneg_bool q) else Fin q.

Definition fadd (x y : float64) : float64 :=
  match x, y with
  | NaN, _ | _, NaN => NaN
  | Inf s, Inf s' => if Bool.eqb s s' then Inf s else NaN
  | Inf s, Fin _ => Inf s
  | Fin _, Inf s => Inf s
  | Fin p, Fin q => overflow (p + q)
  end.

Definition fsub (x y : float64) : float64 :=
  match x, y with
  | NaN, _ | _, NaN => NaN
  | Inf s, Inf s' => if Bool.eqb s s' then NaN else Inf s
  | Inf s, Fin _ => Inf s
  | Fin _, Inf s => Inf (negb s)
  | Fin p, Fin q => overflow (p - q)
  end.

Definition fmul (x y : float64) : float64 :=
  match x, y with
  | NaN, _ | _, NaN => NaN
  | Inf s, Inf s' => Inf (xorb s s')
  | Inf s, Fin q | Fin q, Inf s =>
      if Qzero_bool q then NaN else Inf (xorb s (Qneg_bool q))
  | Fin p, Fin q => overflow (p * q)
  end.

(** numpy's true division: a zero divisor gives an infinity, or [nan] for
    [0/0]; nothing is raised. *)
Definition fdiv (x y : float64) : float64 :=
  match x, y with
  | NaN, _ | _, NaN => NaN
  | Inf _, Inf _ => NaN
  | Inf s, Fin q => Inf (xorb s (Qneg_bool q))
  | Fin _, Inf _ => Fin 0
  | Fin p, Fin q =>
      if Qzero_bool q
      then (if Qzero_bool p then NaN else Inf (Qneg_bool p))
      else overflow (p / q)
  end.

(** [x <= y]: false as soon as one side is [nan]. *)
Definition fleb (x y : float64) : bool :=
  match x, y with
  | NaN, _ | _, NaN => false
  | Inf true, _ => true
  | _, Inf false => true
  | Inf false, _ => false
  | _, Inf true => false
  | Fin p, Fin q => Qle_bool p q
  end.

(** [x == y] *)
Definition feqb (x y : float64) : bool :=
  match x, y with
  | Inf s, Inf s' => Bool.eqb s s'
  | Fin p, Fin q => Qeq_bool p q
  | _, _ => false
  end.

(** [bool(x)]: every float but zero is true, [nan] included. *)
Definition truthy (x : float64) : bool :=
  match x with
  | Fin q => negb (Qzero_bool q)
  | _ => true
  end.

Definition of_nat (n : nat) : float64 := Fin (inject_Z (Z.of_nat n)).

(** The order numpy sorts by: ascending, [nan] last. *)
Definition sort_leb (x y : float64) : bool :=
  match x, y with
  | _, NaN => true
  | NaN, _ => false
  | _, _ => fleb x y
  end.

(* ================================================================== *)
(** * numpy *)

Section Sorting.
Variable A : Type.
Variable leb : A -> A -> bool.

Fixpoint insert (x : A) (l : list A) : list A :=
  match l with
  | [] => [x]
  | y :: l' => if leb x y then x :: l else y :: insert x l'
  end.

Fixpoint isort (l : list A) : list A :=
  match l with
  | [] => []
  | x :: l' => insert x (isort l')
  end.
End Sorting.

Definition np_sort (a : list float64) : list float64 := isort sort_leb a.

(** [a[~np.isnan(a)]] *)
Definition drop_nan (a : list float64) : list float64 :=
  filter (fun x => negb (np_isnan x)) a.

Definition np_sum (a : list float64) : float64 := fold_left fadd a (Fin 0).

(** [np.mean]: the sum over the count ([nan] for the empty array). *)
Definition np_mean (a : list float64) : float64 :=
  fdiv (np_sum a) (of_nat (length a)).

(** numpy's [_lerp]: [a + (b - a) * t], evaluated from [b] when [t >= 0.5]. *)
Definition lerp (a b : float64) (t : Q) : float64 :=
  let diff_b_a := fsub b a in
  if Qle_bool (1 # 2) t
  then fsub b (fmul diff_b_a (Fin (1 - t)))
  else fadd a (fmul diff_b_a (Fin t)).

(** [np.quantile(a, q)] on a non-empty array without [nan], default method
    (linear): the virtual index [q * (n - 1)] is split into its floor and its
    fractional part, and the two neighbouring order statistics are
    interpolated. *)
Definition quantile_linear (a : list float64) (q : Q) : float64 :=
  let s := np_sort a in
  let n := length a in
  let virtual_index := q * inject_Z (Z.of_nat (n - 1)) in
  let previous := Z.to_nat (Qfloor virtual_index) in
  let next := Nat.min (previous + 1) (n - 1) in
  let gamma := virtual_index - inject_Z (Qfloor virtual_index) in
  lerp (nth previous s NaN) (nth next s NaN) gamma.

(** [np.nanquantile(a, q)]: [nan]s are removed first; an all-[nan] or empty
    array gives [nan]. *)
Definition np_nanquantile (a : list float64) (q : Q) : float64 :=
  match drop_nan a with
  | [] => NaN
  | x :: r => quantile_linear (x :: r) q
  end.

(** [np.median(a)]: [nan] if the array is empty or holds a [nan]; else the
    middle order statistic, or the mean of the two middle ones. *)
Definition np_median (a : list float64) : float64 :=
  let n := length a in
  let s := np_sort a in
  if (n =? 0)%nat || existsb np_isnan a then NaN
  else if Nat.even n
       then np_mean [nth (n / 2 - 1) s NaN; nth (n / 2) s NaN]
       else nth (n / 2) s NaN.

(** [np.nanmedian(a)] *)
Definition np_nanmedian (a : list float64) : float64 :=
  match drop_nan a with
  | [] => NaN
  | x :: r => np_median (x :: r)
  end.

(** [a.reshape(-1, k)] of a one-dimensional array whose length is a multiple
    of [k]: the rows, in order. *)
Fixpoint reshape_rows (fuel k : nat) (a : list float64) : list (list float64) :=
  match fuel with
  | O => []
  | S fuel' =>
      match a with
      | [] => []
      | _ :: _ => firstn k a :: reshape_rows fuel' k (skipn k a)
      end
  end.

Definition reshape (k : nat) (a : list float64) : list (list float64) :=
  reshape_rows (length a) k a.

(* ================================================================== *)
(** * The external libraries *)

(** What the scripts take from [fitter], [scipy.stats] and the square root.

    - [Fitter_get_best data] stands for
      [f = Fitter(data, distributions=COMMON_DISTRIBUTIONS, timeout=10); f.fit()]
      followed by reading the first key of [f.get_best(method='sumsquare_error')]
      and its entry in [f.fitted_param]: the winning family and its parameters,
      or an exception.
    - [ppf name ps p] stands for [getattr(stats, name)( *ps ).ppf(p)].
    - [sqrtQ] is the square root on the non-negative rationals. *)
Class Libraries : Type := {
  params : Type;
  Fitter_get_best : list float64 -> outcome (string * params);
  ppf : string -> params -> Q -> float64;
  sqrtQ : Q -> Q
}.

Section Estimates.
Context {L : Libraries}.

Definition np_sqrt (x : float64) : float64 :=
  match x with
  | NaN => NaN
  | Inf true => NaN
  | Inf false => Inf false
  | Fin q => if Qneg_bool q then NaN else Fin (sqrtQ q)
  end.

(** [np.std(a, ddof=ddof)]: the mean is removed, the squares are summed and
    divided by [max(n - ddof, 0)], and the root is taken. *)
Definition np_std (a : list float64) (ddof : nat) : float64 :=
  let arrmean := np_mean a in
  let x := map (fun v => fsub v arrmean) a in
  let x := map (fun v => fmul v v) x in
  np_sqrt (fdiv (np_sum x) (of_nat (length a - ddof))).

(** The two lines shared by every mu-STAB block of both scripts:
    [grps = plot_data[:num_groups*group_size].reshape(-1, group_size)] and
    [sigma_mu = np.std(np.median(grps, axis=1), ddof=1)]. *)
Definition group_medians_std (plot_data : list float64) (num_groups group_size : nat)
  : float64 :=
  let grps := reshape group_size (firstn (num_groups * group_size) plot_data) in
  np_std (map np_median grps) 1.

(** The dict returned by [get_robust_sigma_and_mu]: a field is [None] when
    the dict has no such key.  [dist_obj] holds Python's [None] or the frozen
    distribution, given by its family and parameters. *)
Record estimate : Type := mk_estimate {
  sigma_equiv : option float64;
  median : option float64;
  lsl : option float64;
  usl : option float64;
  dist_obj : option (option (string * params));
  dist_name : option string;
  data_used : option (list float64)
}.
End Estimates.

(** A row of the measurement table: the date column and the value column. *)
Record row : Type := mk_row { date : Z; value : float64 }.

(** [df.sort_values(date_column)]: ascending by date.  Rows of equal date
    keep their order here; pandas leaves their order open, so what is
    proved of a sorted table either holds of every ascending arrangement or
    assumes that no two rows share a date. *)
Definition sort_values (df : list row) : list row :=
  isort (fun r1 r2 => (date r1 <=? date r2)%Z) df.

(** The trend lists of [plot_timeline_analysis], in the order they are
    declared: [sigma_stab_list], [mu_stab_list], [dates]. *)
Definition trend : Type := (list float64 * list float64 * list Z)%type.

Definition q_low : Q := 135 # 100000.
Definition q_mid : Q := 1 # 2.
Definition q_high : Q := 99865 # 100000.

Local Open Scope py_scope.

(* ================================================================== *)
(** * src/test55.py *)

Module Test55.
Section Script.
Context {L : Libraries}.

Definition get_robust_sigma_and_mu
    (data : list float64) (fit_distribution use_abs_values : bool)
  : outcome estimate :=
  let data := if use_abs_values then map np_abs data else data in
  let data := drop_nan data in
  if fit_distribution && (10 <? length data)%nat then
    ' (best_name, best_params) <- Fitter_get_best data ;;
    let dist := (best_name, best_params) in
    let lsl := ppf best_name best_params q_low in
    let usl := ppf best_name best_params q_high in
    let median := ppf best_name best_params q_mid in
    Ok {| sigma_equiv := Some (fdiv (fsub usl lsl) (Fin 6));
          median := Some median;
          lsl := Some lsl; usl := Some usl;
          dist_obj := Some (Some dist); dist_name := Some best_name;
          data_used := Some data |}
  else
    if (length data =? 0)%nat then
      Ok {| sigma_equiv := Some NaN; median := None; lsl := None; usl := None;
            dist_obj := None; dist_name := None; data_used := None |}
    else
      let lsl := np_nanquantile data q_low in
      let usl := np_nanquantile data q_high in
      Ok {| sigma_equiv := Some (fdiv (fsub usl lsl) (Fin 6));
            median := Some (np_nanmedian data);
            lsl := Some lsl; usl := Some usl;
            dist_obj := Some None; dist_name := Some "empirical"%string;
            data_used := Some data |}.

(** [plot_histogramm], up to the two indices of its info box: [None] when
    the function returns before computing anything.  The rendering that
    follows (seaborn, matplotlib, the file written) is not part of the
    model: [Ok] says that the indices are computed, not that the figure is
    drawn. *)
Definition plot_histogramm (df : list row) (hist_sigma_ref : float64) (use_abs : bool)
  : outcome (option (float64 * float64)) :=
  let raw_data := drop_nan (map value df) in
  if (length raw_data <? 5)%nat then Ok None
  else
    res <- get_robust_sigma_and_mu raw_data true use_abs ;;
    plot_data <- getitem "data_used"%string (data_used res) ;;
    sigma_stab <-
      (if truthy hist_sigma_ref
       then s <- getitem "sigma_equiv"%string (sigma_equiv res) ;; Ok (fdiv s hist_sigma_ref)
       else Ok (Fin 0)) ;;
    let group_size := 5%nat in
    let num_groups := (length plot_data / group_size)%nat in
    let mu_stab :=
      if (1 <? num_groups)%nat then
        let sigma_mu := group_medians_std plot_data num_groups group_size in
        if truthy hist_sigma_ref then fdiv sigma_mu hist_sigma_ref else Fin 0
      else Fin 0 in
    Ok (Some (sigma_stab, mu_stab)).

Definition step : nat := 5.

(** One iteration of the loop of [plot_timeline_analysis]; [continue] leaves
    the three lists as they are. *)
Definition timeline_iteration
    (vals : list float64) (index : list Z) (hist_sigma_ref : float64)
    (window_size : nat) (use_abs : bool) (lists : trend) (i : nat)
  : outcome trend :=
  let '(sigma_stab_list, mu_stab_list, dates) := lists in
  let window_data := slice (i - window_size) i vals in
  current_date <- getindex index i ;;
  res <- get_robust_sigma_and_mu window_data false use_abs ;;
  plot_data <- getitem "data_used"%string (data_used res) ;;
  sigma <- getitem "sigma_equiv"%string (sigma_equiv res) ;;
  if np_isnan sigma then Ok lists
  else
    let s_stab := if truthy hist_sigma_ref then fdiv sigma hist_sigma_ref else Fin 0 in
    let group_size := 5%nat in
    let n_groups := (length plot_data / group_size)%nat in
    let m_stab :=
      if (2 <? n_groups)%nat then
        let sigma_mu := group_medians_std plot_data n_groups group_size in
        if truthy hist_sigma_ref then fdiv sigma_mu hist_sigma_ref else Fin 0
      else Fin 0 in
    Ok (sigma_stab_list ++ [s_stab], mu_stab_list ++ [m_stab], dates ++ [current_date]).

(** [plot_timeline_analysis], up to the three lists it plots. *)
Definition plot_timeline_analysis
    (df : list row) (hist_sigma_ref : float64) (window_size : nat) (use_abs : bool)
  : outcome trend :=
  let df_sorted := sort_values df in
  let vals := map value df_sorted in
  let index := map date df_sorted in
  for_loop (timeline_iteration vals index hist_sigma_ref window_size use_abs)
    ([], [], []) (py_range window_size (length vals) step).
End Script.
End Test55.

(* ================================================================== *)
(** * src/histogramm.py *)

Module Histogramm.
Section Script.
Context {L : Libraries}.

Definition get_robust_sigma_and_mu
    (data : list float64) (fit_distribution use_abs_values : bool)
  : outcome estimate :=
  let data := if use_abs_values then map np_abs data else data in
  if fit_distribution then
    ' (best_name, best_params) <- Fitter_get_best data ;;
    let dist := (best_name, best_params) in
    let lsl := ppf best_name best_params q_low in
    let usl := ppf best_name best_params q_high in
    let median := ppf best_name best_params q_mid in
    Ok {| sigma_equiv := Some (fdiv (fsub usl lsl) (Fin 6));
          median := Some median;
          lsl := Some lsl; usl := Some usl;
          dist_obj := Some (Some dist); dist_name := Some best_name;
          data_used := Some data |}
  else
    if (length data =? 0)%nat then
      Ok {| sigma_equiv := Some NaN; median := Some NaN;
            lsl := Some NaN; usl := Some NaN;
            dist_obj := None; dist_name := None; data_used := Some data |}
    else
      let lsl := np_nanquantile data q_low in
      let usl := np_nanquantile data q_high in
      let median := np_nanmedian data in
      Ok {| sigma_equiv := Some (fdiv (fsub usl lsl) (Fin 6));
            median := Some median;
            lsl := Some lsl; usl := Some usl;
            dist_obj := Some None; dist_name := Some "empirical"%string;
            data_used := Some data |}.

(** [plot_snapshot_analysis], up to the two indices of its info box; the
    rendering that follows is not part of the model. *)
Definition plot_snapshot_analysis (df : list row) (hist_sigma_ref : float64) (use_abs : bool)
  : outcome (float64 * float64) :=
  let raw_data := drop_nan (map value df) in
  res <- get_robust_sigma_and_mu raw_data true use_abs ;;
  plot_data <- getitem "data_used"%string (data_used res) ;;
  s <- getitem "sigma_equiv"%string (sigma_equiv res) ;;
  let sigma_stab := fdiv s hist_sigma_ref in
  let group_size := 5%nat in
  let num_groups := (length plot_data / group_size)%nat in
  let mu_stab :=
    if (1 <? num_groups)%nat then
      let sigma_mu := group_medians_std plot_data num_groups group_size in
      fdiv sigma_mu hist_sigma_ref
    else Fin 0 in
  Ok (sigma_stab, mu_stab).

Definition step : nat := 5.

(** One iteration of the loop of [plot_timeline_analysis]. *)
Definition timeline_iteration
    (vals : list float64) (index : list Z) (hist_sigma_ref : float64)
    (window_size : nat) (use_abs : bool) (lists : trend) (i : nat)
  : outcome trend :=
  let '(sigma_stab_list, mu_stab_list, dates) := lists in
  let window_data := slice (i - window_size) i vals in
  current_date <- getindex index i ;;
  res <- get_robust_sigma_and_mu window_data false use_abs ;;
  plot_data <- getitem "data_used"%string (data_used res) ;;
  sigma <- getitem "sigma_equiv"%string (sigma_equiv res) ;;
  if np_isnan sigma then Ok lists
  else
    let s_stab := fdiv sigma hist_sigma_ref in
    let group_size := 5%nat in
    let n_groups := (length plot_data / group_size)%nat in
    let m_stab :=
      if (2 <? n_groups)%nat then
        let sigma_mu := group_medians_std plot_data n_groups group_size in
        fdiv sigma_mu hist_sigma_ref
      else Fin 0 in
    Ok (sigma_stab_list ++ [s_stab], mu_stab_list ++ [m_stab], dates ++ [current_date]).

(** [plot_timeline_analysis], up to the three lists it plots. *)
Definition plot_timeline_analysis
    (df : list row) (hist_sigma_ref : float64) (window_size : nat) (use_abs : bool)
  : outcome trend :=
  let df_sorted := sort_values df in
  let vals := map value df_sorted in
  let index := map date df_sorted in
  for_loop (timeline_iteration vals index hist_sigma_ref window_size use_abs)
    ([], [], []) (py_range window_size (length vals) step).
End Script.
End Histogramm.

(* ================================================================== *)
(** * A library instance to run the scripts on concrete samples *)

(** Square root to six decimal places, rounded down. *)
Definition sqrtQ_floor (q : Q) : Q :=
  inject_Z (Z.sqrt (Qnum q * 10 ^ 12 / Zpos (Qden q))) / inject_Z (10 ^ 6).

(** The fitter of this instance refuses an empty sample and otherwise
    answers the normal family at location 0 and scale 1; the quantile
    function is linearised, [loc + 6 * |scale| * (p - 1/2)]. *)
Definition demo_libraries : Libraries := {|
  params := (Q * Q)%type;
  Fitter_get_best := fun data =>
    match data with
    | [] => Raises FitterError
    | _ :: _ => Ok ("norm"%string, (0, 1))
    end;
  ppf := fun _ ps p => Fin (fst ps + 6 * Qabs (snd ps) * (p - (1 # 2)));
  sqrtQ := sqrtQ_floor
|}.

(* ================================================================== *)
(** * The specification's vocabulary *)

(** [x <= y] on defined values. *)
Definition fle (x y : float64) : Prop := fleb x y = true.

(** The consecutive non-overlapping chunks of [size] elements, in the
    sample's order; a remainder that does not fill a chunk is discarded. *)
Fixpoint chunks_upto (fuel size : nat) (sample : list float64) : list (list float64) :=
  match fuel with
  | O => []
  | S fuel' =>
      if (length sample <? size)%nat then []
      else firstn size sample :: chunks_upto fuel' size (skipn size sample)
  end.

Definition complete_chunks (size : nat) (sample : list float64) : list (list float64) :=
  chunks_upto (length sample) size sample.

(** A property of what a call returns, when it returns. *)
Definition when_returned {A : Type} (P : A -> Prop) (o : outcome A) : Prop :=
  match o with
  | Ok a => P a
  | Raises _ => True
  end.

(** The call returns. *)
Definition returns {A : Type} (o : outcome A) : Prop := exists a, o = Ok a.

(** The equivalent sigma of the empirical quantiles of a window. *)
Definition empirical_sigma (w : list float64) : float64 :=
  fdiv (fsub (np_nanquantile w q_high) (np_nanquantile w q_low)) (Fin 6).

(** The sample an estimator of [test55.py] works on. *)
Definition cleaned (data : list float64) (use_abs : bool) : list float64 :=
  drop_nan (if use_abs then map np_abs data else data).

(** The [window_size] measurements that precede position [i]. *)
Definition trailing_window (window_size i : nat) (vals : list float64) : list float64 :=
  firstn window_size (skipn (i - window_size) vals).

(** A point of the trend: timestamp, sigma-STAB, mu-STAB. *)
Record TimelinePoint : Type := mk_point {
  timestamp : Z;
  sigma_stab : float64;
  mu_stab : float64
}.

Definition trend_of (pts : list TimelinePoint) : trend :=
  (map sigma_stab pts, map mu_stab pts, map timestamp pts).

Definition push (lists : trend) (p : TimelinePoint) : trend :=
  let '(sigma_stab_list, mu_stab_list, dates) := lists in
  (sigma_stab_list ++ [sigma_stab p], mu_stab_list ++ [mu_stab p], dates ++ [timestamp p]).

(** The points kept out of a list of windows, skipped windows leaving no
    entry. *)
Definition kept {A : Type} (l : list (option A)) : list A :=
  flat_map (fun o => match o with Some p => [p] | None => [] end) l.

Section Vocabulary.
Context {L : Libraries}.

(** The sample standard deviation with Bessel's correction: the squared
    deviations from the mean, summed, over [n - 1]. *)
Definition bessel_std (xs : list float64) : float64 :=
  let mean := np_mean xs in
  np_sqrt (fdiv (np_sum (map (fun x => fmul (fsub x mean) (fsub x mean)) xs))
                (of_nat (length xs - 1))).

(** mu-STAB as the specification words it: the Bessel-corrected deviation
    of the medians of the complete chunks of five, over the reference. *)
Definition spec_mu_stab (sample : list float64) (reference_sigma : float64) : float64 :=
  fdiv (bessel_std (map np_median (complete_chunks 5 sample))) reference_sigma.

(** The trend point of the window ending before position [i], as
    [histogramm.py] computes it: [None] when the window's equivalent sigma
    is undefined. *)
Definition histogramm_point
    (vals : list float64) (index : list Z) (reference_sigma : float64)
    (window_size : nat) (use_abs : bool) (i : nat) : option TimelinePoint :=
  let w := trailing_window window_size i vals in
  let sample := if use_abs then map np_abs w else w in
  let sigma := empirical_sigma sample in
  if np_isnan sigma then None
  else Some {| timestamp := nth i index 0%Z;
               sigma_stab := fdiv sigma reference_sigma;
               mu_stab := if (length sample / 5 <=? 2)%nat then Fin 0
                          else spec_mu_stab sample reference_sigma |}.

(** The same for [test55.py], whose estimator drops the missing values
    and whose indices are guarded against a zero reference; it is used on
    windows that keep at least one value. *)
Definition test55_point
    (vals : list float64) (index : list Z) (reference_sigma : float64)
    (window_size : nat) (use_abs : bool) (i : nat) : option TimelinePoint :=
  let w := trailing_window window_size i vals in
  let sample := drop_nan (if use_abs then map np_abs w else w) in
  let sigma := empirical_sigma sample in
  if np_isnan sigma then None
  else Some {| timestamp := nth i index 0%Z;
               sigma_stab := if truthy reference_sigma
                             then fdiv sigma reference_sigma else Fin 0;
               mu_stab := if (length sample / 5 <=? 2)%nat then Fin 0
                          else if truthy reference_sigma
                               then spec_mu_stab sample reference_sigma
                               else Fin 0 |}.

(** The estimate of the empirical path. *)
Definition empirical_estimate (sample : list float64) : estimate :=
  {| sigma_equiv := Some (empirical_sigma sample);
     median := Some (np_nanmedian sample);
     lsl := Some (np_nanquantile sample q_low);
     usl := Some (np_nanquantile sample q_high);
     dist_obj := Some None; dist_name := Some "empirical"%string;
     data_used := Some sample |}.

(** The invariant of a returned estimate: defined, ordered bounds, and an
    equivalent sigma that is a sixth of their span. *)
Definition ordered_estimate (res : estimate) : Prop :=
  exists l m u s : Q,
    lsl res = Some (Fin l) /\ median res = Some (Fin m) /\
    usl res = Some (Fin u) /\ sigma_equiv res = Some (Fin s) /\
    l <= m /\ m <= u /\ s == (u - l) / 6 /\ 0 <= s.

(** The dict [{'sigma_equiv': np.nan}]. *)
Definition sigma_only_estimate : estimate :=
  {| sigma_equiv := Some NaN; median := None; lsl := None; usl := None;
     dist_obj := None; dist_name := None; data_used := None |}.

(** The undefined estimate of the specification: every numeric field is
    not-a-number and the source is the empirical quantiles. *)
Definition undefined_estimate (res : estimate) : Prop :=
  sigma_equiv res = Some NaN /\ median res = Some NaN /\
  lsl res = Some NaN /\ usl res = Some NaN /\
  dist_name res = Some "empirical"%string.

(** The absolute-value property of one call on the sample [S], as the
    specification words it: the sample used is the elementwise absolute
    value of the non-missing elements, and both bounds are >= 0. *)
Definition abs_property (o : outcome estimate) (S : list float64) : Prop :=
  exists res l u,
    o = Ok res /\
    data_used res = Some (map np_abs (drop_nan S)) /\
    lsl res = Some l /\ usl res = Some u /\
    fle (Fin 0) l /\ fle (Fin 0) u.

End Vocabulary.

(** A finite sample in ascending order. *)
Definition sortQ (qs : list Q) : list Q := isort Qle_bool qs.

(** Linear interpolation of the order statistics [s] at the virtual
    index [v]. *)
Definition interp (s : list Q) (v : Q) : Q :=
  let lo := Z.to_nat (Qfloor v) in
  let hi := Nat.min (lo + 1) (length s - 1) in
  nth lo s 0 + (nth hi s 0 - nth lo s 0) * (v - inject_Z (Qfloor v)).

(** A trend is well formed when its three lists have one length and its
    timestamps do not decrease. *)
Definition trend_well_formed (t : trend) : Prop :=
  let '(sigma_stab_list, mu_stab_list, dates) := t in
  length sigma_stab_list = length mu_stab_list /\
  length mu_stab_list = length dates /\
  Sorted Z.le dates.

Definition np_isfinite (x : float64) : bool :=
  match x with Fin _ => true | _ => false end.

(** A table whose dates are the positions 1, 2, ... of its values. *)
Definition series (vals : list float64) : list row :=
  map (fun p => {| date := Z.of_nat (fst p); value := snd p |})
      (combine (seq 1 (length vals)) vals).

Definition whole (zs : list Z) : list float64 := map (fun z => Fin (inject_Z z)) zs.

(** Samples used to run the scripts. *)
Definition five_values : list float64 := whole [1; 2; 3; 4; 5]%Z.
Definition ten_values : list float64 := whole [1; 2; 3; 4; 5; 7; 9; 11; 14; 20]%Z.
Definition sixteen_values : list float64 :=
  whole [1; 2; 3; 4; 5; 7; 9; 11; 14; 20; 6; 8; 10; 12; 13; 15]%Z.
Definition missing_then_one : list float64 := [NaN; NaN; Fin 1].
Definition signed_values : list float64 := [Fin (-3); NaN; Fin 1; Fin (-2)].

(* ================================================================== *)
(** * The per-interval calls of spc_analysis *)

Section Driver.
Context {L : Libraries}.

(** The body of the loop over [time_intervals] in [spc_analysis] of
    [test55.py], from the test on the size of [interval_data] on: the two
    calls, with the reference computed once per characteristic and the
    window of [max(20, len(interval_data)//10)] rows.  [None] stands for
    [continue]; the pair holds what the two functions hand to rendering. *)
Definition spc_interval_charts (interval_data : list row) (global_sigma_ref : float64)
  : outcome (option (option (float64 * float64) * trend)) :=
  if (length interval_data <? 10)%nat then Ok None
  else
    h <- Test55.plot_histogramm interval_data global_sigma_ref false ;;
    t <- Test55.plot_timeline_analysis interval_data global_sigma_ref
           (Nat.max 20 (length interval_data / 10)) false ;;
    Ok (Some (h, t)).

(** [global_sigma_ref] of [spc_analysis]: the equivalent sigma of the exact
    mode on all the values of the characteristic. *)
Definition spc_global_sigma_ref (values : list float64) : outcome float64 :=
  global_sigma_res <- Test55.get_robust_sigma_and_mu values true false ;;
  getitem "sigma_equiv"%string (sigma_equiv global_sigma_res).
End Driver.

(** The table is in ascending order of date. *)
Definition sorted_by_date (df : list row) : Prop :=
  Sorted (fun r1 r2 => (date r1 <= date r2)%Z) df.

(** The dates of the table are strictly increasing: no two rows share a
    date. *)
Definition increasing_dates (df : list row) : Prop :=
  Sorted (fun r1 r2 => (date r1 < date r2)%Z) df.

(** The trend [t'] starts with the trend [t]. *)
Definition trend_extends (t t' : trend) : Prop :=
  let '(s, m, d) := t in
  exists s2 m2 d2, t' = (s ++ s2, m ++ m2, d ++ d2).

(** The dates read at the positions [items] of the sorted table. *)
Definition dates_at (df : list row) (items : list nat) : list Z :=
  map (fun i => nth i (map date (sort_values df)) 0%Z) items.

(** Every value of the sample lies between [lo] and [hi]. *)
Definition within (lo hi : Q) (sample : list float64) : Prop :=
  forall q, In (Fin q) sample -> lo <= q /\ q <= hi.

(** More samples used to run the scripts. *)
Definition with_missing : list float64 := [NaN; Fin 1; NaN; Fin 2].

(* ================================================================== *)
(** * Samples within the range of a double *)

(** A measurement that is missing, or a real number within the range of a
    double. *)
Definition double_or_missing (x : float64) : Prop :=
  match x with
  | NaN => True
  | Inf _ => False
  | Fin q => Qabs q <= max_float
  end.

(** A measurement that is missing, or a real number of magnitude at most
    half the largest double: neither the sum nor the difference of two such
    values overflows. *)
Definition moderate_or_missing (x : float64) : Prop :=
  match x with
  | NaN => True
  | Inf _ => False
  | Fin q => 2 * Qabs q <= max_float
  end.

(** The same for the rows of a table, none of which is missing. *)
Definition moderate_values (df : list row) : Prop :=
  Forall (fun r => exists q, value r = Fin q /\ 2 * Qabs q <= max_float) df.

(** What the interpolation of two order statistics and the mean of the two
    middle ones need from a finite sample. *)
Definition in_range (qs : list Q) : Prop :=
  Forall (fun q => Qabs q <= max_float) qs.

Definition span_in_range (qs : list Q) : Prop :=
  forall a b, In a qs -> In b qs -> b - a <= max_float.

Definition sums_in_range (qs : list Q) : Prop :=
  forall a b, In a qs -> In b qs -> Qabs (a + b) <= max_float.

Definition moderate (qs : list Q) : Prop :=
  Forall (fun q => 2 * Qabs q <= max_float) qs.

Section FittedVocabulary.
Context {L : Libraries}.

(** The three quantiles that the exact mode reads from the fitted family
    are finite and in order, and the difference of the outer two does not
    overflow. *)
Definition ordered_quantiles (name : string) (ps : params) : Prop :=
  exists l m u : Q,
    ppf name ps q_low = Fin l /\ ppf name ps q_mid = Fin m /\
    ppf name ps q_high = Fin u /\
    l <= m /\ m <= u /\ u - l < overflow_bound.

(** The estimate of the exact mode once [sample] has been fitted: median
    and bounds are the quantiles of the fitted family. *)
Definition fitted_estimate (sample : list float64) (res : estimate) : Prop :=
  exists name ps,
    Fitter_get_best sample = Ok (name, ps) /\
    lsl res = Some (ppf name ps q_low) /\
    median res = Some (ppf name ps q_mid) /\
    usl res = Some (ppf name ps q_high) /\
    sigma_equiv res =
      Some (fdiv (fsub (ppf name ps q_high) (ppf name ps q_low)) (Fin 6)) /\
    data_used res = Some sample /\
    (ordered_estimate res <-> ordered_quantiles name ps).
End FittedVocabulary.


Definition with_infinity : list float64 := [Fin (-1); Inf false].
Definition eleven_values : list float64 := whole [1; 2; 3; 4; 5; 6; 7; 8; 9; 10; 11]%Z.
Definition missing_and_negative : list float64 := [NaN; Fin (-1)].

(* ================================================================== *)
(** * The scripts on concrete samples *)

Example division_by_zero :
  fdiv (Fin 1) (Fin 0) = Inf false /\ fdiv (Fin 0) (Fin 0) = NaN /\
  fdiv (Fin (-1)) (Fin 0) = Inf true /\ truthy NaN = true /\ truthy (Fin 0) = false.
Proof. repeat split. Qed.

Example overflow_to_infinity :
  fadd (Fin max_float) (Fin max_float) = Inf false /\
  fsub (Fin (- max_float)) (Fin max_float) = Inf true /\
  fmul (Fin max_float) (Fin 2) = Inf false /\
  fadd (Fin max_float) (Fin (- max_float)) = Fin (max_float + - max_float) /\
  fmul (Inf false) (Fin 0) = NaN /\ fsub (Inf false) (Inf false) = NaN.
Proof. repeat split; vm_compute; reflexivity. Qed.

Example low_quantile_of_five :
  feqb (np_nanquantile five_values q_low) (Fin (10054 # 10000)) = true.
Proof. reflexivity. Qed.

Example high_quantile_of_five :
  feqb (np_nanquantile five_values q_high) (Fin (49946 # 10000)) = true.
Proof. reflexivity. Qed.

Example median_of_five : np_nanmedian five_values = Fin 3.
Proof. reflexivity. Qed.

Example median_of_four : feqb (np_median (whole [1; 4; 3; 2]%Z)) (Fin (5 # 2)) = true.
Proof. reflexivity. Qed.

Example median_with_missing : np_median [Fin 1; NaN; Fin 3] = NaN.
Proof. reflexivity. Qed.

Example quantile_ignores_missing :
  np_nanquantile [Fin 1; NaN; Fin 3] q_mid = np_nanquantile [Fin 1; Fin 3] q_mid.
Proof. reflexivity. Qed.

Example range_of_positions : py_range 50 73 5 = [50; 55; 60; 65; 70]%nat.
Proof. reflexivity. Qed.

Example rows_of_ten :
  reshape 5 ten_values = [whole [1; 2; 3; 4; 5]%Z; whole [7; 9; 11; 14; 20]%Z].
Proof. reflexivity. Qed.

Example chunks_of_sixteen :
  complete_chunks 5 sixteen_values =
  [whole [1; 2; 3; 4; 5]%Z; whole [7; 9; 11; 14; 20]%Z; whole [6; 8; 10; 12; 13]%Z].
Proof. reflexivity. Qed.

Example deviation_of_two_medians :
  feqb (@group_medians_std demo_libraries ten_values 2 5) (Fin (5656854 # 1000000)) = true.
Proof. vm_compute. reflexivity. Qed.

Example test55_estimate_of_five :
  @Test55.get_robust_sigma_and_mu demo_libraries five_values true false =
  @Test55.get_robust_sigma_and_mu demo_libraries five_values false false.
Proof. reflexivity. Qed.

Example test55_exact_estimate_of_eleven :
  exists res,
    @Test55.get_robust_sigma_and_mu demo_libraries eleven_values true false = Ok res /\
    dist_name res = Some "norm"%string /\
    ordered_estimate res.
Proof.
  eexists. split; [vm_compute; reflexivity|]. split; [reflexivity|].
  do 4 eexists. repeat (split; [reflexivity|]).
  repeat split; vm_compute; congruence.
Qed.

Example histogramm_snapshot_of_ten_zero_reference :
  @Histogramm.plot_snapshot_analysis demo_libraries (series ten_values) (Fin 0) false =
  Ok (Inf false, Inf false).
Proof. vm_compute. reflexivity. Qed.

Example histogramm_reports_missing_value :
  exists res,
    @Histogramm.get_robust_sigma_and_mu demo_libraries [NaN; Fin 1] false false = Ok res /\
    data_used res = Some [NaN; Fin 1].
Proof. eexists. repeat split. Qed.

Example test55_reports_present_value :
  exists res,
    @Test55.get_robust_sigma_and_mu demo_libraries [NaN; Fin 1] false false = Ok res /\
    data_used res = Some [Fin 1].
Proof. eexists. repeat split. Qed.

Example histogramm_trend_with_missing_value :
  exists s,
    @Histogramm.plot_timeline_analysis demo_libraries
      (series (NaN :: firstn 15 sixteen_values)) (Fin 1) 15 false =
    Ok ([s], [NaN], [16%Z]).
Proof. eexists. vm_compute. reflexivity. Qed.

Example histogramm_trend_of_twelve :
  exists s,
    @Histogramm.plot_timeline_analysis demo_libraries
      (series ([NaN; NaN] ++ whole [3; 4; 5; 6; 7; 8; 9; 10; 11; 12]%Z)) (Fin 1) 2 false =
    Ok ([s], [Fin 0], [8%Z]).
Proof. eexists. vm_compute. reflexivity. Qed.

(* ================================================================== *)
(** * Missing values and absolute values *)

Lemma drop_nan_idem (a : list float64) : drop_nan (drop_nan a) = drop_nan a.
Proof.
  unfold drop_nan. induction a as [|x a IH]; simpl; [reflexivity|].
  destruct (np_isnan x) eqn:E; simpl; [exact IH|].
  rewrite E. simpl. now rewrite IH.
Qed.

Lemma np_isnan_abs (x : float64) : np_isnan (np_abs x) = np_isnan x.
Proof. now destruct x. Qed.

Lemma drop_nan_abs (a : list float64) :
  drop_nan (map np_abs a) = map np_abs (drop_nan a).
Proof.
  unfold drop_nan. induction a as [|x a IH]; simpl; [reflexivity|].
  rewrite np_isnan_abs. destruct (np_isnan x); simpl; now rewrite IH.
Qed.

Lemma drop_nan_no_nan (a : list float64) : existsb np_isnan (drop_nan a) = false.
Proof.
  unfold drop_nan. induction a as [|x a IH]; simpl; [reflexivity|].
  destruct (np_isnan x) eqn:E; simpl; [exact IH|]. now rewrite E, IH.
Qed.

Lemma drop_nan_length (a : list float64) : (length (drop_nan a) <= length a)%nat.
Proof.
  unfold drop_nan. induction a as [|x a IH]; simpl; [lia|].
  destruct (np_isnan x); simpl; lia.
Qed.

Lemma np_nanquantile_drop_nan (a : list float64) (q : Q) :
  np_nanquantile (drop_nan a) q = np_nanquantile a q.
Proof. unfold np_nanquantile. now rewrite drop_nan_idem. Qed.

Lemma np_nanmedian_drop_nan (a : list float64) :
  np_nanmedian (drop_nan a) = np_nanmedian a.
Proof. unfold np_nanmedian. now rewrite drop_nan_idem. Qed.

Lemma np_nanquantile_all_missing (a : list float64) (q : Q) :
  drop_nan a = [] -> np_nanquantile a q = NaN.
Proof. unfold np_nanquantile. now intros ->. Qed.

Lemma np_nanmedian_all_missing (a : list float64) :
  drop_nan a = [] -> np_nanmedian a = NaN.
Proof. unfold np_nanmedian. now intros ->. Qed.

Lemma length_zero_nil {A : Type} (l : list A) : (length l =? 0)%nat = true <-> l = [].
Proof.
  rewrite Nat.eqb_eq. split; [apply length_zero_iff_nil | now intros ->].
Qed.

Lemma cleaned_drop_nan (data : list float64) (use_abs : bool) :
  cleaned (drop_nan data) use_abs = cleaned data use_abs.
Proof.
  unfold cleaned. destruct use_abs.
  - now rewrite !drop_nan_abs, drop_nan_idem.
  - apply drop_nan_idem.
Qed.

Lemma cleaned_abs (data : list float64) :
  cleaned data true = map np_abs (drop_nan data).
Proof. apply drop_nan_abs. Qed.

Lemma cleaned_length (data : list float64) (use_abs : bool) :
  length (cleaned data use_abs) = length (drop_nan data).
Proof.
  unfold cleaned. destruct use_abs; [|reflexivity].
  now rewrite drop_nan_abs, length_map.
Qed.

(* ================================================================== *)
(** * The estimators, case by case *)

Section EstimatorCases.
Context {L : Libraries}.

Lemma test55_fast (data : list float64) (use_abs : bool) :
  Test55.get_robust_sigma_and_mu data false use_abs =
  match cleaned data use_abs with
  | [] => Ok {| sigma_equiv := Some NaN; median := None; lsl := None; usl := None;
                dist_obj := None; dist_name := None; data_used := None |}
  | _ :: _ => Ok (empirical_estimate (cleaned data use_abs))
  end.
Proof.
  unfold Test55.get_robust_sigma_and_mu. fold (cleaned data use_abs).
  simpl. now destruct (cleaned data use_abs).
Qed.

Lemma test55_small (data : list float64) (use_abs : bool) :
  (length (drop_nan data) <= 10)%nat ->
  Test55.get_robust_sigma_and_mu data true use_abs =
  Test55.get_robust_sigma_and_mu data false use_abs.
Proof.
  intros Hlen. unfold Test55.get_robust_sigma_and_mu.
  fold (cleaned data use_abs). rewrite cleaned_length.
  replace (10 <? length (drop_nan data))%nat with false; [reflexivity|].
  symmetry. apply Nat.ltb_ge. exact Hlen.
Qed.

Lemma test55_returns_fast (data : list float64) (use_abs : bool) :
  exists res, Test55.get_robust_sigma_and_mu data false use_abs = Ok res.
Proof. rewrite test55_fast. destruct (cleaned data use_abs); eauto. Qed.

Lemma test55_ignores_missing (data : list float64) (fit use_abs : bool) :
  Test55.get_robust_sigma_and_mu (drop_nan data) fit use_abs =
  Test55.get_robust_sigma_and_mu data fit use_abs.
Proof.
  unfold Test55.get_robust_sigma_and_mu.
  fold (cleaned (drop_nan data) use_abs). fold (cleaned data use_abs).
  now rewrite cleaned_drop_nan.
Qed.

Lemma test55_data_used (data : list float64) (fit use_abs : bool) (res : estimate)
    (sample : list float64) :
  Test55.get_robust_sigma_and_mu data fit use_abs = Ok res ->
  data_used res = Some sample ->
  sample = cleaned data use_abs /\ sample <> [].
Proof.
  unfold Test55.get_robust_sigma_and_mu. fold (cleaned data use_abs).
  destruct (fit && (10 <? length (cleaned data use_abs))%nat) eqn:E.
  - destruct (Fitter_get_best (cleaned data use_abs)) as [[n ps]|e]; simpl; [|discriminate].
    intros [= <-]; simpl. intros [= <-]. split; [reflexivity|].
    apply andb_prop in E. destruct E as [_ E]. apply Nat.ltb_lt in E.
    intros Hnil. rewrite Hnil in E. simpl in E. lia.
  - destruct (length (cleaned data use_abs) =? 0)%nat eqn:E0.
    + intros [= <-]; simpl. discriminate.
    + intros [= <-]; simpl. intros [= <-]. split; [reflexivity|].
      intros Hnil. rewrite Hnil in E0. discriminate.
Qed.

Lemma histogramm_fast (data : list float64) (use_abs : bool) :
  Histogramm.get_robust_sigma_and_mu data false use_abs =
  let sample := if use_abs then map np_abs data else data in
  match sample with
  | [] => Ok {| sigma_equiv := Some NaN; median := Some NaN;
                lsl := Some NaN; usl := Some NaN;
                dist_obj := None; dist_name := None; data_used := Some sample |}
  | _ :: _ => Ok (empirical_estimate sample)
  end.
Proof.
  unfold Histogramm.get_robust_sigma_and_mu. simpl.
  now destruct (if use_abs then map np_abs data else data).
Qed.

Lemma histogramm_fast_fields (data : list float64) (use_abs : bool) :
  let sample := if use_abs then map np_abs data else data in
  exists res,
    Histogramm.get_robust_sigma_and_mu data false use_abs = Ok res /\
    sigma_equiv res = Some (empirical_sigma sample) /\
    median res = Some (np_nanmedian sample) /\
    lsl res = Some (np_nanquantile sample q_low) /\
    usl res = Some (np_nanquantile sample q_high) /\
    data_used res = Some sample.
Proof.
  intros sample. rewrite histogramm_fast. fold sample.
  destruct sample; eexists; (split; [reflexivity|]); simpl; auto 10.
Qed.
End EstimatorCases.

(* ================================================================== *)
(** * Sorting *)

Section SortingFacts.
Variables (A : Type) (leb : A -> A -> bool).

Lemma insert_length (x : A) (l : list A) : length (insert leb x l) = S (length l).
Proof.
  induction l as [|y l IH]; simpl; [reflexivity|].
  destruct (leb x y); simpl; [reflexivity | now rewrite IH].
Qed.

Lemma isort_length (l : list A) : length (isort leb l) = length l.
Proof.
  induction l as [|x l IH]; simpl; [reflexivity|].
  now rewrite insert_length, IH.
Qed.

Lemma insert_perm (x : A) (l : list A) : Permutation (x :: l) (insert leb x l).
Proof.
  induction l as [|y l IH]; simpl; [apply Permutation_refl|].
  destruct (leb x y); [apply Permutation_refl|].
  eapply perm_trans; [apply perm_swap | now apply perm_skip].
Qed.

Lemma isort_perm (l : list A) : Permutation l (isort leb l).
Proof.
  induction l as [|x l IH]; simpl; [apply perm_nil|].
  eapply perm_trans; [apply perm_skip, IH | apply insert_perm].
Qed.

Lemma isort_Forall (P : A -> Prop) (l : list A) : Forall P l -> Forall P (isort leb l).
Proof. intros H. eapply Permutation_Forall; [apply isort_perm | exact H]. Qed.

Variable le : A -> A -> Prop.
Hypothesis leb_le : forall x y, leb x y = true -> le x y.
Hypothesis leb_total : forall x y, leb x y = false -> le y x.

Lemma insert_sorted (x : A) (l : list A) : Sorted le l -> Sorted le (insert leb x l).
Proof.
  induction l as [|y l IH]; simpl; intros Hs.
  - repeat constructor.
  - destruct (leb x y) eqn:E.
    + constructor; [exact Hs | constructor; now apply leb_le].
    + inversion Hs as [|? ? Hs' Hhd]; subst.
      constructor; [now apply IH|].
      destruct l as [|z l]; simpl.
      * constructor. now apply leb_total.
      * destruct (leb x z); constructor; [now apply leb_total|].
        now inversion Hhd.
Qed.

Lemma isort_sorted (l : list A) : Sorted le (isort leb l).
Proof.
  induction l as [|x l IH]; simpl; [constructor | now apply insert_sorted].
Qed.
End SortingFacts.

Lemma isort_map (A B : Type) (f : A -> B) (lebA : A -> A -> bool) (lebB : B -> B -> bool)
    (l : list A) :
  (forall x y, lebB (f x) (f y) = lebA x y) ->
  isort lebB (map f l) = map f (isort lebA l).
Proof.
  intros Hf. induction l as [|x l IH]; simpl; [reflexivity|].
  rewrite IH. generalize (isort lebA l) as s. intros s.
  induction s as [|y s IHs]; simpl; [reflexivity|].
  rewrite Hf. destruct (lebA x y); simpl; [reflexivity | now rewrite IHs].
Qed.

Lemma strongly_sorted_nth (s : list Q) (i j : nat) :
  StronglySorted Qle s -> (i <= j)%nat -> (j < length s)%nat ->
  nth i s 0 <= nth j s 0.
Proof.
  intros Hs. revert i j. induction Hs as [|x s Hs IH Hall]; intros i j Hij Hj.
  - simpl in Hj. lia.
  - destruct i as [|i], j as [|j]; simpl in *; try lia.
    + apply Qle_refl.
    + rewrite Forall_forall in Hall. apply Hall. apply nth_In. lia.
    + apply IH; lia.
Qed.

Lemma sortQ_sorted (qs : list Q) : StronglySorted Qle (sortQ qs).
Proof.
  apply Sorted_StronglySorted.
  - intros x y z. apply Qle_trans.
  - apply isort_sorted with (le := Qle).
    + intros x y. apply Qle_bool_imp_le.
    + intros x y E. destruct (Qlt_le_dec y x) as [Hlt|Hle].
      * now apply Qlt_le_weak.
      * apply Qle_bool_iff in Hle. congruence.
Qed.

Lemma sortQ_length (qs : list Q) : length (sortQ qs) = length qs.
Proof. apply isort_length. Qed.

Lemma np_sort_finite (qs : list Q) : np_sort (map Fin qs) = map Fin (sortQ qs).
Proof. apply isort_map. reflexivity. Qed.

Lemma nth_map_Fin (s : list Q) (i : nat) :
  (i < length s)%nat -> nth i (map Fin s) NaN = Fin (nth i s 0).
Proof.
  intros Hi. rewrite nth_indep with (d' := Fin 0).
  - apply (map_nth Fin).
  - now rewrite length_map.
Qed.

(* ================================================================== *)
(** * Arithmetic within the range of a double *)

Lemma max_float_pos : 0 < max_float.
Proof. vm_compute. reflexivity. Qed.

Lemma max_float_below_bound : max_float < overflow_bound.
Proof. vm_compute. reflexivity. Qed.

Lemma overflow_below (q : Q) : Qabs q < overflow_bound -> overflow q = Fin q.
Proof.
  intros H. unfold overflow.
  destruct (Qle_bool overflow_bound (Qabs q)) eqn:E; [|reflexivity].
  apply Qle_bool_iff in E. lra.
Qed.

Lemma overflow_in_range (q : Q) : Qabs q <= max_float -> overflow q = Fin q.
Proof.
  intros H. apply overflow_below. pose proof max_float_below_bound. lra.
Qed.

Lemma overflow_finite (q x : Q) : overflow q = Fin x -> x = q /\ Qabs q < overflow_bound.
Proof.
  unfold overflow. destruct (Qle_bool overflow_bound (Qabs q)) eqn:E; [discriminate|].
  intros [= <-]. split; [reflexivity|].
  apply Qnot_le_lt. intros H. apply Qle_bool_iff in H. congruence.
Qed.

Lemma Qabs_bounds (q : Q) : q <= Qabs q /\ - q <= Qabs q.
Proof.
  split; [apply Qle_Qabs|]. rewrite <- Qabs_opp. apply Qle_Qabs.
Qed.

Lemma moderate_ranges (qs : list Q) :
  moderate qs -> in_range qs /\ span_in_range qs /\ sums_in_range qs.
Proof.
  unfold moderate, in_range, span_in_range, sums_in_range.
  rewrite !Forall_forall. intros H.
  pose proof max_float_pos as HM.
  repeat split.
  - intros q Hq. pose proof (H q Hq). pose proof (Qabs_nonneg q). lra.
  - intros a b Ha Hb. pose proof (H a Ha). pose proof (H b Hb).
    destruct (Qabs_bounds a), (Qabs_bounds b). lra.
  - intros a b Ha Hb. pose proof (H a Ha). pose proof (H b Hb).
    destruct (Qabs_bounds a), (Qabs_bounds b).
    apply Qabs_Qle_condition. split; lra.
Qed.

(** Absolute values that a double can hold have differences in range. *)
Lemma abs_ranges (qs : list Q) :
  in_range qs -> in_range (map Qabs qs) /\ span_in_range (map Qabs qs).
Proof.
  unfold in_range, span_in_range. rewrite !Forall_forall. intros H. split.
  - intros x Hx. apply in_map_iff in Hx. destruct Hx as (q & <- & Hq).
    rewrite Qabs_pos by apply Qabs_nonneg. now apply H.
  - intros a b Ha Hb.
    apply in_map_iff in Ha. destruct Ha as (p & <- & Hp).
    apply in_map_iff in Hb. destruct Hb as (q & <- & Hq).
    pose proof (H q Hq). pose proof (Qabs_nonneg p). lra.
Qed.

Lemma finite_sample_with (P : Q -> Prop) (a : list float64) :
  Forall (fun x => match x with NaN => True | Inf _ => False | Fin q => P q end) a ->
  exists qs, drop_nan a = map Fin qs /\ Forall P qs.
Proof.
  induction 1 as [|x a Hx _ (qs & IH & HP)]; simpl.
  - exists []. split; [reflexivity | constructor].
  - destruct x as [| s | q]; simpl.
    + now exists qs.
    + contradiction.
    + exists (q :: qs). simpl. rewrite IH. split; [reflexivity | now constructor].
Qed.

Lemma moderate_or_missing_abs (a : list float64) :
  Forall moderate_or_missing a -> Forall moderate_or_missing (map np_abs a).
Proof.
  induction 1 as [|x a Hx _ IH]; simpl; constructor; [|exact IH].
  destruct x as [| s | q]; simpl in *; try assumption.
  now rewrite Qabs_pos by apply Qabs_nonneg.
Qed.

Lemma In_sortQ (qs : list Q) (x : Q) : In x (sortQ qs) <-> In x qs.
Proof.
  split; apply Permutation_in; [apply Permutation_sym|]; apply isort_perm.
Qed.

(* ================================================================== *)
(** * Empirical quantiles of a finite sample *)

(** The interpolation of two ordered values whose difference does not
    overflow is finite and lies between them. *)
Lemma lerp_finite (a b t : Q) :
  a <= b -> Qabs a <= max_float -> Qabs b <= max_float -> b - a <= max_float ->
  0 <= t -> t <= 1 ->
  exists x, lerp (Fin a) (Fin b) t = Fin x /\ x == a + (b - a) * t /\ a <= x /\ x <= b.
Proof.
  intros Hab Ha Hb Hd Ht0 Ht1.
  apply Qabs_Qle_condition in Ha, Hb. destruct Ha as [Ha1 Ha2], Hb as [Hb1 Hb2].
  pose proof max_float_pos as HM.
  assert (Hp : 0 <= (b - a) * t) by (apply Qmult_le_0_compat; lra).
  assert (Hp' : 0 <= (b - a) * (1 - t)) by (apply Qmult_le_0_compat; lra).
  assert (E : (b - a) * t + (b - a) * (1 - t) == b - a) by ring.
  unfold lerp. cbn [fsub].
  rewrite (@overflow_in_range (b - a)) by (apply Qabs_Qle_condition; split; lra).
  cbn [fmul].
  destruct (Qle_bool (1 # 2) t).
  - rewrite (@overflow_in_range ((b - a) * (1 - t)))
      by (apply Qabs_Qle_condition; split; lra).
    cbn [fsub].
    rewrite overflow_in_range by (apply Qabs_Qle_condition; split; lra).
    eexists. split; [reflexivity|]. split; [ring | split; lra].
  - rewrite (@overflow_in_range ((b - a) * t))
      by (apply Qabs_Qle_condition; split; lra).
    cbn [fadd].
    rewrite overflow_in_range by (apply Qabs_Qle_condition; split; lra).
    eexists. split; [reflexivity|]. split; [ring | split; lra].
Qed.

Lemma drop_nan_finite (qs : list Q) : drop_nan (map Fin qs) = map Fin qs.
Proof. induction qs as [|q qs IH]; simpl; [reflexivity | now rewrite IH]. Qed.

Lemma virtual_index_bounds (q : Q) (k : nat) :
  0 <= q -> q <= 1 ->
  let v := q * inject_Z (Z.of_nat k) in
  0 <= v /\ v <= inject_Z (Z.of_nat k) /\ (Z.to_nat (Qfloor v) <= k)%nat.
Proof.
  intros H0 H1 v.
  assert (Hk : 0 <= inject_Z (Z.of_nat k)).
  { change 0 with (inject_Z 0). rewrite <- Zle_Qle. lia. }
  assert (Hv0 : 0 <= v) by (unfold v; now apply Qmult_le_0_compat).
  assert (Hv1 : v <= inject_Z (Z.of_nat k)).
  { unfold v. rewrite <- (Qmult_1_l (inject_Z (Z.of_nat k))) at 2.
    apply Qmult_le_compat_r; assumption. }
  repeat split; try assumption.
  assert (Hf : (Qfloor v <= Z.of_nat k)%Z).
  { rewrite <- (Qfloor_Z (Z.of_nat k)). now apply Qfloor_resp_le. }
  lia.
Qed.

Lemma fractional_part (v : Q) :
  0 <= v - inject_Z (Qfloor v) /\ v - inject_Z (Qfloor v) < 1.
Proof.
  pose proof (Qfloor_le v) as Hle. pose proof (Qlt_floor v) as Hlt.
  rewrite inject_Z_plus in Hlt. change (inject_Z 1) with 1 in Hlt.
  split; lra.
Qed.

(** A quantile of a finite sample whose differences do not overflow is
    finite: it is the interpolation of the order statistics, and it lies
    between two values of the sample. *)
Lemma quantile_linear_finite (qs : list Q) (q : Q) :
  qs <> [] -> 0 <= q -> q <= 1 -> in_range qs -> span_in_range qs ->
  exists x a b,
    quantile_linear (map Fin qs) q = Fin x /\
    x == interp (sortQ qs) (q * inject_Z (Z.of_nat (length qs - 1))) /\
    In a qs /\ In b qs /\ a <= x /\ x <= b.
Proof.
  intros Hne H0 H1 Hr Hs.
  assert (Hn : (0 < length qs)%nat) by (destruct qs; simpl; [congruence | lia]).
  destruct (virtual_index_bounds (length qs - 1) H0 H1) as (_ & _ & Hlo).
  unfold quantile_linear, interp.
  rewrite np_sort_finite, length_map, sortQ_length.
  set (v := q * inject_Z (Z.of_nat (length qs - 1))) in *.
  set (lo := Z.to_nat (Qfloor v)) in *.
  set (hi := Nat.min (lo + 1) (length qs - 1)).
  rewrite !nth_map_Fin by (rewrite sortQ_length; unfold hi; lia).
  assert (Ia : In (nth lo (sortQ qs) 0) qs).
  { apply In_sortQ, nth_In. rewrite sortQ_length. lia. }
  assert (Ib : In (nth hi (sortQ qs) 0) qs).
  { apply In_sortQ, nth_In. rewrite sortQ_length. unfold hi. lia. }
  destruct (fractional_part v) as [Hg0 Hg1].
  unfold in_range in Hr. rewrite Forall_forall in Hr.
  destruct (@lerp_finite (nth lo (sortQ qs) 0) (nth hi (sortQ qs) 0)
              (v - inject_Z (Qfloor v))) as (x & Hx & Hxv & Hxa & Hxb).
  - apply strongly_sorted_nth;
      [apply sortQ_sorted | unfold hi; lia | rewrite sortQ_length; unfold hi; lia].
  - now apply Hr.
  - now apply Hr.
  - now apply Hs.
  - exact Hg0.
  - lra.
  - exists x, (nth lo (sortQ qs) 0), (nth hi (sortQ qs) 0). auto 10.
Qed.

Lemma np_nanquantile_finite (qs : list Q) (q : Q) :
  qs <> [] -> 0 <= q -> q <= 1 -> in_range qs -> span_in_range qs ->
  exists x a b,
    np_nanquantile (map Fin qs) q = Fin x /\
    x == interp (sortQ qs) (q * inject_Z (Z.of_nat (length qs - 1))) /\
    In a qs /\ In b qs /\ a <= x /\ x <= b.
Proof.
  intros Hne H0 H1 Hr Hs. unfold np_nanquantile. rewrite drop_nan_finite.
  destruct (quantile_linear_finite Hne H0 H1 Hr Hs) as (x & a & b & Hx & H).
  exists x, a, b. split; [|exact H].
  destruct qs as [|q0 qs]; [congruence | exact Hx].
Qed.

(** The interpolation lies between the two order statistics it uses, and it
    does not decrease with the virtual index. *)
Lemma interp_between (s : list Q) (v : Q) :
  StronglySorted Qle s -> 0 <= v -> v <= inject_Z (Z.of_nat (length s - 1)) ->
  (0 < length s)%nat ->
  let lo := Z.to_nat (Qfloor v) in
  let hi := Nat.min (lo + 1) (length s - 1) in
  (lo <= length s - 1)%nat /\
  nth lo s 0 <= interp s v /\ interp s v <= nth hi s 0.
Proof.
  intros Hs Hv0 Hv1 Hn lo hi.
  assert (Hlo : (lo <= length s - 1)%nat).
  { assert (Hf : (Qfloor v <= Z.of_nat (length s - 1))%Z).
    { rewrite <- (Qfloor_Z (Z.of_nat (length s - 1))). now apply Qfloor_resp_le. }
    unfold lo. lia. }
  split; [exact Hlo|].
  assert (Hab : nth lo s 0 <= nth hi s 0).
  { apply strongly_sorted_nth; [exact Hs | unfold hi; lia | unfold hi; lia]. }
  destruct (fractional_part v) as [Hg0 Hg1].
  unfold interp. fold lo. fold hi.
  set (a := nth lo s 0) in *. set (b := nth hi s 0) in *.
  set (g := v - inject_Z (Qfloor v)) in *.
  assert (H1 : 0 <= (b - a) * g) by (apply Qmult_le_0_compat; lra).
  assert (H2 : 0 <= (b - a) * (1 - g)) by (apply Qmult_le_0_compat; lra).
  split; [lra|].
  assert (E : b - (a + (b - a) * g) == (b - a) * (1 - g)) by ring.
  lra.
Qed.

Lemma interp_monotone (s : list Q) (v w : Q) :
  StronglySorted Qle s -> (0 < length s)%nat ->
  0 <= v -> v <= w -> w <= inject_Z (Z.of_nat (length s - 1)) ->
  interp s v <= interp s w.
Proof.
  intros Hs Hn Hv0 Hvw Hw1.
  assert (Hv1 : v <= inject_Z (Z.of_nat (length s - 1))) by lra.
  assert (Hw0 : 0 <= w) by lra.
  destruct (interp_between Hs Hv0 Hv1 Hn) as (Hi & _ & Hv_hi).
  destruct (interp_between Hs Hw0 Hw1 Hn) as (Hj & Hw_lo & _).
  pose proof (Qfloor_resp_le _ _ Hvw) as Hij.
  assert (Hf0 : (0 <= Qfloor v)%Z).
  { change 0%Z with (Qfloor 0). now apply Qfloor_resp_le. }
  destruct (Z.eq_dec (Qfloor v) (Qfloor w)) as [E|NE].
  - unfold interp. rewrite <- E.
    set (lo := Z.to_nat (Qfloor v)) in *.
    set (hi := Nat.min (lo + 1) (length s - 1)).
    assert (Hab : nth lo s 0 <= nth hi s 0).
    { apply strongly_sorted_nth; [exact Hs | unfold hi; lia | unfold hi; lia]. }
    assert (H : 0 <= (nth hi s 0 - nth lo s 0) * (w - v)) by (apply Qmult_le_0_compat; lra).
    assert (E' : (nth lo s 0 + (nth hi s 0 - nth lo s 0) * (w - inject_Z (Qfloor v)))
                 - (nth lo s 0 + (nth hi s 0 - nth lo s 0) * (v - inject_Z (Qfloor v)))
                 == (nth hi s 0 - nth lo s 0) * (w - v)) by ring.
    lra.
  - eapply Qle_trans; [exact Hv_hi|]. eapply Qle_trans; [|exact Hw_lo].
    apply strongly_sorted_nth; [exact Hs | lia | lia].
Qed.

Lemma Qfloor_unique (v : Q) (z : Z) :
  inject_Z z <= v -> v < inject_Z (z + 1) -> Qfloor v = z.
Proof.
  intros Hle Hlt.
  pose proof (Qfloor_resp_le _ _ Hle) as H1. rewrite Qfloor_Z in H1.
  assert (H2 : (Qfloor v < z + 1)%Z).
  { rewrite Zlt_Qlt. eapply Qle_lt_trans; [apply Qfloor_le | exact Hlt]. }
  lia.
Qed.

Lemma existsb_isnan_finite (qs : list Q) : existsb np_isnan (map Fin qs) = false.
Proof. induction qs; simpl; auto. Qed.

(** The mean of two values whose sum does not overflow. *)
Lemma np_mean_pair (a b : Q) :
  Qabs a <= max_float -> Qabs (a + b) <= max_float ->
  exists m, np_mean [Fin a; Fin b] = Fin m /\ m == (a + b) / 2.
Proof.
  intros Ha Hab.
  apply Qabs_Qle_condition in Ha, Hab. destruct Ha as [Ha1 Ha2], Hab as [Hab1 Hab2].
  pose proof max_float_pos as HM.
  unfold np_mean, np_sum. cbn [fold_left fadd length of_nat].
  rewrite (@overflow_in_range (0 + a)) by (apply Qabs_Qle_condition; split; lra).
  cbn [fadd].
  rewrite (@overflow_in_range (0 + a + b)) by (apply Qabs_Qle_condition; split; lra).
  unfold of_nat. cbn [fdiv]. change (Qzero_bool (inject_Z (Z.of_nat 2))) with false. cbv iota.
  change (inject_Z (Z.of_nat 2)) with 2.
  rewrite overflow_in_range.
  - eexists. split; [reflexivity|]. field.
  - apply Qabs_Qle_condition. split.
    + apply Qle_shift_div_l; lra.
    + apply Qle_shift_div_r; lra.
Qed.

(** The median is the interpolation at the middle virtual index. *)
Lemma np_median_finite (qs : list Q) :
  qs <> [] -> in_range qs -> sums_in_range qs ->
  exists m,
    np_median (map Fin qs) = Fin m /\
    m == interp (sortQ qs) ((1 # 2) * inject_Z (Z.of_nat (length qs - 1))).
Proof.
  intros Hne Hr Hsum.
  assert (Hn : (0 < length qs)%nat) by (destruct qs; simpl; [congruence | lia]).
  unfold np_median. rewrite length_map, existsb_isnan_finite, np_sort_finite.
  replace (length qs =? 0)%nat with false by (symmetry; apply Nat.eqb_neq; lia).
  simpl orb. cbv iota.
  unfold interp. rewrite sortQ_length.
  assert (Hin : forall i, (i < length qs)%nat -> In (nth i (sortQ qs) 0) qs).
  { intros i Hi. apply In_sortQ, nth_In. now rewrite sortQ_length. }
  set (s := sortQ qs) in *. set (n := length qs) in *.
  assert (Hs : length s = n) by apply sortQ_length.
  unfold in_range in Hr. rewrite Forall_forall in Hr.
  destruct (Nat.even n) eqn:Ev.
  - apply Nat.even_spec in Ev. destruct Ev as [t Ht].
    assert (Hdiv : (n / 2 = t)%nat) by (rewrite Ht, Nat.mul_comm; apply Nat.div_mul; lia).
    rewrite Hdiv.
    rewrite !nth_map_Fin by lia.
    destruct (@np_mean_pair (nth (t - 1) s 0) (nth t s 0)) as (m & Hm & Hmv).
    { apply Hr, Hin. lia. }
    { apply Hsum; apply Hin; lia. }
    exists m. split; [exact Hm|]. rewrite Hmv.
    assert (Hv : (1 # 2) * inject_Z (Z.of_nat (n - 1)) == inject_Z (Z.of_nat t - 1) + (1 # 2)).
    { replace (Z.of_nat (n - 1)) with (2 * (Z.of_nat t - 1) + 1)%Z by lia.
      rewrite inject_Z_plus, inject_Z_mult. change (inject_Z 2) with 2.
      change (inject_Z 1) with 1. ring. }
    assert (Hfl : Qfloor ((1 # 2) * inject_Z (Z.of_nat (n - 1))) = (Z.of_nat t - 1)%Z).
    { apply Qfloor_unique; rewrite Hv.
      - lra.
      - rewrite inject_Z_plus. change (inject_Z 1) with 1. lra. }
    rewrite Hfl.
    replace (Z.to_nat (Z.of_nat t - 1)) with (t - 1)%nat by lia.
    replace (Nat.min (t - 1 + 1) (n - 1)) with t by lia.
    rewrite Hv. field.
  - assert (Hodd : Nat.odd n = true) by (rewrite <- Nat.negb_even, Ev; reflexivity).
    apply Nat.odd_spec in Hodd. destruct Hodd as [t Ht].
    assert (Hdiv : (n / 2 = t)%nat).
    { rewrite Ht, Nat.mul_comm. rewrite Nat.div_add_l by lia. simpl. lia. }
    rewrite Hdiv. rewrite nth_map_Fin by lia.
    eexists. split; [reflexivity|].
    assert (Hv : (1 # 2) * inject_Z (Z.of_nat (n - 1)) == inject_Z (Z.of_nat t)).
    { replace (Z.of_nat (n - 1)) with (2 * Z.of_nat t)%Z by lia.
      rewrite inject_Z_mult. change (inject_Z 2) with 2. field. }
    assert (Hfl : Qfloor ((1 # 2) * inject_Z (Z.of_nat (n - 1))) = Z.of_nat t).
    { apply Qfloor_unique; rewrite Hv.
      - lra.
      - rewrite inject_Z_plus. change (inject_Z 1) with 1. lra. }
    rewrite Hfl, Hv, Nat2Z.id. ring.
Qed.

Lemma np_nanmedian_finite (qs : list Q) :
  qs <> [] -> in_range qs -> sums_in_range qs ->
  exists m,
    np_nanmedian (map Fin qs) = Fin m /\
    m == interp (sortQ qs) ((1 # 2) * inject_Z (Z.of_nat (length qs - 1))).
Proof.
  intros Hne Hr Hsum. unfold np_nanmedian. rewrite drop_nan_finite.
  destruct (np_median_finite Hne Hr Hsum) as (m & Hm & Hmv).
  exists m. split; [|exact Hmv].
  destruct qs as [|q0 qs]; [congruence | exact Hm].
Qed.

(** Lower quantile, median and upper quantile of a finite sample without
    overflow are finite and ordered, between the smallest and the largest
    value of the sample. *)
Lemma empirical_quantiles_ordered (qs : list Q) :
  qs <> [] -> in_range qs -> span_in_range qs -> sums_in_range qs ->
  exists l m u a b,
    np_nanquantile (map Fin qs) q_low = Fin l /\
    np_nanmedian (map Fin qs) = Fin m /\
    np_nanquantile (map Fin qs) q_high = Fin u /\
    In a qs /\ In b qs /\
    a <= l /\ l <= m /\ m <= u /\ u <= b.
Proof.
  intros Hne Hr Hs Hsum.
  assert (Hn : (0 < length qs)%nat) by (destruct qs; simpl; [congruence | lia]).
  destruct (@np_nanquantile_finite qs q_low Hne) as (l & a & _ & Hl & Hlv & Ha & _ & Hal & _);
    [unfold q_low; lra | unfold q_low; lra | exact Hr | exact Hs |].
  destruct (@np_nanquantile_finite qs q_high Hne) as (u & _ & b & Hu & Huv & _ & Hb & _ & Hub);
    [unfold q_high; lra | unfold q_high; lra | exact Hr | exact Hs |].
  destruct (np_nanmedian_finite Hne Hr Hsum) as (m & Hm & Hmv).
  exists l, m, u, a, b. repeat (split; [assumption|]).
  pose proof (sortQ_sorted qs) as Hsorted.
  pose proof (sortQ_length qs) as Hlen.
  assert (Hk : 0 <= inject_Z (Z.of_nat (length qs - 1))).
  { change 0 with (inject_Z 0). rewrite <- Zle_Qle. lia. }
  set (k := inject_Z (Z.of_nat (length qs - 1))) in *.
  split; [|split; [|exact Hub]].
  - rewrite Hlv, Hmv. apply interp_monotone; try assumption; try lia.
    + unfold q_low. apply Qmult_le_0_compat; lra.
    + unfold q_low. nra.
    + rewrite Hlen. fold k. lra.
  - rewrite Hmv, Huv. apply interp_monotone; try assumption; try lia.
    + apply Qmult_le_0_compat; lra.
    + unfold q_high. nra.
    + rewrite Hlen. fold k. unfold q_high. nra.
Qed.

(** The equivalent sigma of two ordered bounds whose difference does not
    overflow. *)
Lemma sigma_of_bounds_below (l u : Q) :
  l <= u -> u - l < overflow_bound ->
  fdiv (fsub (Fin u) (Fin l)) (Fin 6) = Fin ((u - l) / 6).
Proof.
  intros Hlu Hd.
  cbn [fsub]. rewrite overflow_below by (rewrite Qabs_pos; lra).
  cbn [fdiv]. change (Qzero_bool 6) with false. cbv iota.
  apply overflow_below.
  assert (H0 : 0 <= (u - l) / 6) by (apply Qle_shift_div_l; lra).
  rewrite Qabs_pos by exact H0.
  apply Qlt_shift_div_r; lra.
Qed.

Lemma sigma_of_bounds (l u : Q) :
  l <= u -> u - l <= max_float ->
  fdiv (fsub (Fin u) (Fin l)) (Fin 6) = Fin ((u - l) / 6).
Proof.
  intros Hlu Hd. apply sigma_of_bounds_below; [exact Hlu|].
  pose proof max_float_below_bound. lra.
Qed.

(* ================================================================== *)
(** * The ordering invariant *)

Section Ordering.
Context {L : Libraries}.


(** With a fitted family the invariant is the order of its three
    quantiles: the estimator adds no check. *)
Lemma fitted_estimate_spec (name : string) (ps : params) (sample : list float64) :
  Fitter_get_best sample = Ok (name, ps) ->
  fitted_estimate sample
    {| sigma_equiv := Some (fdiv (fsub (ppf name ps q_high) (ppf name ps q_low)) (Fin 6));
       median := Some (ppf name ps q_mid);
       lsl := Some (ppf name ps q_low); usl := Some (ppf name ps q_high);
       dist_obj := Some (Some (name, ps)); dist_name := Some name;
       data_used := Some sample |}.
Proof.
  intros Hfit. exists name, ps. cbn [lsl median usl sigma_equiv data_used].
  repeat (split; [reflexivity || assumption|]).
  unfold ordered_estimate, ordered_quantiles. cbn [lsl median usl sigma_equiv].
  split.
  - intros (l & m & u & s & [= Hl] & [= Hm] & [= Hu] & [= Hs] & Hlm & Hmu & _ & _).
    exists l, m, u. repeat (split; [assumption|]).
    rewrite Hl, Hu in Hs. cbn [fsub] in Hs.
    destruct (overflow (u - l)) as [| sg | d] eqn:E; cbn [fdiv] in Hs; try discriminate.
    apply overflow_finite in E. destruct E as [_ E].
    destruct (Qabs_bounds (u - l)). lra.
  - intros (l & m & u & Hl & Hm & Hu & Hlm & Hmu & Hd).
    exists l, m, u, ((u - l) / 6). rewrite Hl, Hm, Hu, sigma_of_bounds_below by lra.
    repeat (split; [reflexivity || assumption|]).
    apply Qle_shift_div_l; lra.
Qed.

Lemma test55_fitted (data : list float64) (use_abs : bool) :
  (10 < length (drop_nan data))%nat ->
  when_returned (fitted_estimate (cleaned data use_abs))
    (Test55.get_robust_sigma_and_mu data true use_abs).
Proof.
  intros Hlen. unfold Test55.get_robust_sigma_and_mu. fold (cleaned data use_abs).
  rewrite cleaned_length. apply Nat.ltb_lt in Hlen. rewrite Hlen. cbn [andb].
  destruct (Fitter_get_best (cleaned data use_abs)) as [[name ps]|e] eqn:E;
    cbn [bind when_returned]; [|exact I].
  now apply fitted_estimate_spec.
Qed.

Lemma histogramm_fitted (data : list float64) (use_abs : bool) :
  when_returned (fitted_estimate (if use_abs then map np_abs data else data))
    (Histogramm.get_robust_sigma_and_mu data true use_abs).
Proof.
  unfold Histogramm.get_robust_sigma_and_mu.
  destruct (Fitter_get_best (if use_abs then map np_abs data else data))
    as [[name ps]|e] eqn:E; cbn [bind when_returned]; [|exact I].
  now apply fitted_estimate_spec.
Qed.

Lemma cleaned_moderate (data : list float64) (use_abs : bool) :
  Forall moderate_or_missing data -> drop_nan data <> [] ->
  exists qs,
    drop_nan (if use_abs then map np_abs data else data) = map Fin qs /\
    qs <> [] /\ moderate qs.
Proof.
  intros Hmod Hne.
  assert (Hmod' : Forall moderate_or_missing (if use_abs then map np_abs data else data)).
  { destruct use_abs; [now apply moderate_or_missing_abs | exact Hmod]. }
  destruct (finite_sample_with (fun q => 2 * Qabs q <= max_float) Hmod') as (qs & Hqs & HP).
  exists qs. split; [exact Hqs|]. split; [|exact HP].
  intros ->. apply Hne. apply length_zero_iff_nil.
  rewrite <- (cleaned_length data use_abs). unfold cleaned. now rewrite Hqs.
Qed.


End Ordering.

(* ================================================================== *)
(** * Absolute values *)

Lemma np_nanquantile_nonneg (qs : list Q) (q : Q) :
  qs <> [] -> 0 <= q -> q <= 1 -> in_range qs ->
  exists x, np_nanquantile (map Fin (map Qabs qs)) q = Fin x /\ 0 <= x.
Proof.
  intros Hne H0 H1 Hr.
  assert (Hne' : map Qabs qs <> []) by (destruct qs; simpl; congruence).
  destruct (abs_ranges Hr) as [Hr' Hs'].
  destruct (np_nanquantile_finite Hne' H0 H1 Hr' Hs')
    as (x & a & _ & Hx & _ & Ha & _ & Hax & _).
  exists x. split; [exact Hx|].
  apply in_map_iff in Ha. destruct Ha as (p & <- & _).
  pose proof (Qabs_nonneg p). lra.
Qed.

Lemma map_abs_Fin (qs : list Q) : map np_abs (map Fin qs) = map Fin (map Qabs qs).
Proof. now rewrite !map_map. Qed.

Section AbsoluteValues.
Context {L : Libraries}.

Lemma fle_zero_Fin (x : Q) : 0 <= x -> fle (Fin 0) (Fin x).
Proof. intros H. unfold fle. simpl. now apply Qle_bool_iff. Qed.

Lemma empirical_abs_property (S sample : list float64) (qs : list Q) :
  drop_nan S = map Fin qs -> qs <> [] -> in_range qs ->
  drop_nan sample = map np_abs (drop_nan S) ->
  exists l u,
    lsl (empirical_estimate sample) = Some l /\
    usl (empirical_estimate sample) = Some u /\
    fle (Fin 0) l /\ fle (Fin 0) u.
Proof.
  intros Hqs Hne Hr Hsample. rewrite Hqs, map_abs_Fin in Hsample.
  destruct (@np_nanquantile_nonneg qs q_low Hne) as (l & Hl & Hl0);
    [unfold q_low; lra | unfold q_low; lra | exact Hr |].
  destruct (@np_nanquantile_nonneg qs q_high Hne) as (u & Hu & Hu0);
    [unfold q_high; lra | unfold q_high; lra | exact Hr |].
  rewrite <- Hsample, np_nanquantile_drop_nan in Hl, Hu.
  exists (Fin l), (Fin u). simpl. rewrite Hl, Hu.
  repeat split; now apply fle_zero_Fin.
Qed.

Lemma test55_reports_sample (data : list float64) (fit use_abs : bool) :
  drop_nan data <> [] ->
  when_returned (fun res => data_used res = Some (cleaned data use_abs))
    (Test55.get_robust_sigma_and_mu data fit use_abs).
Proof.
  intros Hne.
  destruct (Test55.get_robust_sigma_and_mu data fit use_abs) as [res|e] eqn:E;
    simpl; [|exact I].
  assert (Hc : cleaned data use_abs <> []).
  { intros Hnil. apply Hne, length_zero_iff_nil.
    now rewrite <- (cleaned_length data use_abs), Hnil. }
  revert E. unfold Test55.get_robust_sigma_and_mu. fold (cleaned data use_abs).
  destruct (fit && _).
  - destruct (Fitter_get_best _) as [[n ps]|e]; simpl; [|discriminate].
    now intros [= <-].
  - destruct (length (cleaned data use_abs) =? 0)%nat eqn:E0.
    + apply length_zero_nil in E0. contradiction.
    + now intros [= <-].
Qed.

Lemma histogramm_reports_sample (data : list float64) (fit use_abs : bool) :
  when_returned (fun res => data_used res = Some (if use_abs then map np_abs data else data))
    (Histogramm.get_robust_sigma_and_mu data fit use_abs).
Proof.
  unfold Histogramm.get_robust_sigma_and_mu. destruct fit.
  - destruct (Fitter_get_best _) as [[n ps]|e]; simpl; [reflexivity | exact I].
  - destruct (length _ =? 0)%nat; reflexivity.
Qed.

(** C6, amended.  With use_absolute_values set and a sample that keeps at
    least one value: the sample used by [test55.py] is the elementwise
    absolute value of the non-missing elements, in both modes, and so is
    that of [histogramm.py] when no element is missing.  On the empirical
    path (fast mode, and [test55.py]'s exact mode when at most 10 values
    are left), when the values present are real numbers, both bounds are
    >= 0 in both scripts.  When a distribution is fitted, the bounds are
    the fitted family's quantiles at 0.00135 and 0.99865, whatever their
    sign. *)
Theorem abs_sample_and_bounds (S : list float64) (fit_distribution : bool) :
  drop_nan S <> [] ->
  when_returned (fun res => data_used res = Some (map np_abs (drop_nan S)))
    (Test55.get_robust_sigma_and_mu S fit_distribution true) /\
  (drop_nan S = S ->
   when_returned (fun res => data_used res = Some (map np_abs (drop_nan S)))
     (Histogramm.get_robust_sigma_and_mu S fit_distribution true)) /\
  (Forall double_or_missing S ->
   abs_property (Test55.get_robust_sigma_and_mu S false true) S /\
   ((length (drop_nan S) <= 10)%nat ->
    abs_property (Test55.get_robust_sigma_and_mu S true true) S) /\
   (exists res l u,
      Histogramm.get_robust_sigma_and_mu S false true = Ok res /\
      lsl res = Some l /\ usl res = Some u /\
      fle (Fin 0) l /\ fle (Fin 0) u)) /\
  ((10 < length (drop_nan S))%nat ->
   when_returned (fitted_estimate (cleaned S true))
     (Test55.get_robust_sigma_and_mu S true true)) /\
  when_returned (fitted_estimate (map np_abs S))
    (Histogramm.get_robust_sigma_and_mu S true true).
Proof.
  intros Hne.
  assert (Hclean : cleaned S true = map np_abs (drop_nan S)) by apply cleaned_abs.
  split; [|split; [|split; [|split]]].
  - rewrite <- Hclean. now apply test55_reports_sample.
  - intros Hall. rewrite Hall. apply (histogramm_reports_sample S fit_distribution true).
  - intros Hreal.
    destruct (finite_sample_with (fun q => Qabs q <= max_float) Hreal) as (qs & Hqs & Hr).
    assert (Hqne : qs <> []) by (intros ->; now apply Hne).
    assert (Hcne : cleaned S true <> []).
    { rewrite Hclean, Hqs. destruct qs; simpl; congruence. }
    assert (Hfast : abs_property (Test55.get_robust_sigma_and_mu S false true) S).
    { destruct (@empirical_abs_property S (cleaned S true) qs Hqs Hqne Hr)
        as (l & u & Hl & Hu & Hl0 & Hu0).
      { unfold cleaned. now rewrite drop_nan_idem, drop_nan_abs. }
      exists (empirical_estimate (cleaned S true)), l, u.
      split; [|split; [simpl; now rewrite Hclean | auto]].
      rewrite test55_fast. destruct (cleaned S true); [congruence | reflexivity]. }
    split; [exact Hfast | split].
    + intros Hlen. now rewrite test55_small.
    + destruct (@empirical_abs_property S (map np_abs S) qs Hqs Hqne Hr)
        as (l & u & Hl & Hu & Hl0 & Hu0); [apply drop_nan_abs|].
      exists (empirical_estimate (map np_abs S)), l, u.
      split; [|auto].
      rewrite histogramm_fast. cbv zeta.
      destruct (map np_abs S) eqn:E; [|reflexivity].
      destruct S; [contradiction | discriminate].
  - apply test55_fitted.
  - apply (histogramm_fitted S true).
Qed.
End AbsoluteValues.

(* ================================================================== *)
(** * Subgroups *)

Lemma firstn_plus {A : Type} (n m : nat) (l : list A) :
  firstn (n + m) l = firstn n l ++ firstn m (skipn n l).
Proof.
  revert l. induction n as [|n IH]; intros l; [reflexivity|].
  destruct l as [|x l]; simpl.
  - now rewrite firstn_nil.
  - now rewrite IH.
Qed.

Lemma reshape_rows_chunks (size k : nat) :
  (0 < size)%nat ->
  forall (f1 f2 : nat) (sample : list float64),
    (length sample / size = k)%nat -> (k <= f1)%nat -> (k <= f2)%nat ->
    reshape_rows f1 size (firstn (k * size) sample) = chunks_upto f2 size sample.
Proof.
  intros Hsize. induction k as [|k IH]; intros f1 f2 sample Hk H1 H2.
  - simpl. assert (Hlt : (length sample < size)%nat).
    { apply Nat.div_small_iff in Hk; lia. }
    destruct f1, f2; simpl; try reflexivity;
      apply Nat.ltb_lt in Hlt; now rewrite Hlt.
  - destruct f1 as [|f1]; [lia|]. destruct f2 as [|f2]; [lia|].
    assert (Hge : (size <= length sample)%nat).
    { destruct (Nat.lt_ge_cases (length sample) size) as [Hlt|Hge]; [|exact Hge].
      apply Nat.div_small in Hlt. lia. }
    assert (Hhead : length (firstn size sample) = size) by (apply firstn_length_le; exact Hge).
    assert (Hsplit : firstn (S k * size) sample =
                     firstn size sample ++ firstn (k * size) (skipn size sample)).
    { replace (S k * size)%nat with (size + k * size)%nat by (simpl; lia).
      apply firstn_plus. }
    assert (Hrest : (length (skipn size sample) / size = k)%nat).
    { rewrite length_skipn.
      replace (length sample) with ((length sample - size) + 1 * size)%nat in Hk by lia.
      rewrite Nat.div_add in Hk by lia. lia. }
    simpl chunks_upto.
    replace (length sample <? size)%nat with false by (symmetry; apply Nat.ltb_ge; exact Hge).
    rewrite Hsplit. simpl reshape_rows.
    destruct (firstn size sample ++ firstn (k * size) (skipn size sample)) as [|x r] eqn:E.
    + apply (f_equal (@length _)) in E. rewrite length_app, Hhead in E. simpl in E. lia.
    + rewrite <- E.
      rewrite firstn_app, Hhead, Nat.sub_diag, firstn_O, app_nil_r.
      rewrite firstn_all2 by lia.
      rewrite skipn_app, Hhead, Nat.sub_diag, skipn_O.
      rewrite skipn_all2 by lia. simpl app.
      f_equal. apply IH; [exact Hrest | lia | lia].
Qed.

Lemma reshape_complete_chunks (sample : list float64) :
  reshape 5 (firstn (length sample / 5 * 5) sample) = complete_chunks 5 sample.
Proof.
  unfold reshape, complete_chunks.
  assert (Hk : (length sample / 5 * 5 <= length sample)%nat).
  { rewrite Nat.mul_comm. apply Nat.Div0.mul_div_le. }
  apply reshape_rows_chunks; [lia | reflexivity | |].
  - rewrite firstn_length_le by exact Hk. lia.
  - lia.
Qed.

Lemma complete_chunks_length (sample : list float64) :
  length (complete_chunks 5 sample) = (length sample / 5)%nat.
Proof.
  unfold complete_chunks.
  assert (H : forall k f s, (length s / 5 = k)%nat -> (k <= f)%nat ->
                            length (chunks_upto f 5 s) = k).
  { induction k as [|k IH]; intros f s Hk Hf.
    - assert (Hlt : (length s < 5)%nat) by (apply Nat.div_small_iff in Hk; lia).
      destruct f; simpl; [reflexivity|].
      apply Nat.ltb_lt in Hlt. now rewrite Hlt.
    - destruct f as [|f]; [lia|].
      assert (Hge : (5 <= length s)%nat).
      { destruct (Nat.lt_ge_cases (length s) 5) as [Hlt|Hge]; [|exact Hge].
        apply Nat.div_small in Hlt. lia. }
      cbn [chunks_upto].
      replace (length s <? 5)%nat with false by (symmetry; apply Nat.ltb_ge; exact Hge).
      cbn [length]. f_equal. apply IH; [|lia].
      rewrite length_skipn.
      replace (length s) with ((length s - 5) + 1 * 5)%nat in Hk by lia.
      rewrite Nat.div_add in Hk by lia. lia. }
  apply H; [reflexivity|].
  destruct (length sample) eqn:E; [reflexivity|].
  apply Nat.lt_le_incl, Nat.div_lt; lia.
Qed.

Lemma complete_chunks_full (sample : list float64) :
  Forall (fun c => length c = 5%nat) (complete_chunks 5 sample) /\
  concat (complete_chunks 5 sample) = firstn (length sample / 5 * 5) sample.
Proof.
  unfold complete_chunks.
  assert (H : forall f s, (length s / 5 <= f)%nat ->
            Forall (fun c => length c = 5%nat) (chunks_upto f 5 s) /\
            concat (chunks_upto f 5 s) = firstn (length s / 5 * 5) s).
  { induction f as [|f IH]; intros s Hf.
    - cbn [chunks_upto concat]. split; [constructor|].
      assert (E : (length s / 5 = 0)%nat) by lia. now rewrite E.
    - cbn [chunks_upto]. destruct (length s <? 5)%nat eqn:E.
      + apply Nat.ltb_lt in E. rewrite (Nat.div_small _ _ E). split; [constructor | reflexivity].
      + apply Nat.ltb_ge in E.
        assert (Hdiv : (length s / 5 = S (length (skipn 5 s) / 5))%nat).
        { rewrite length_skipn.
          replace (length s) with ((length s - 5) + 1 * 5)%nat at 1 by lia.
          rewrite Nat.div_add by lia. lia. }
        destruct (IH (skipn 5 s)) as [Hall Hcat]; [lia|].
        split.
        * constructor; [apply firstn_length_le; exact E | exact Hall].
        * cbn [concat]. rewrite Hcat, Hdiv.
          replace (S (length (skipn 5 s) / 5) * 5)%nat
            with (5 + length (skipn 5 s) / 5 * 5)%nat by lia.
          now rewrite firstn_plus. }
  apply H.
  destruct (length sample) eqn:E; [simpl; lia|].
  apply Nat.lt_le_incl, Nat.div_lt; lia.
Qed.

Section Subgroups.
Context {L : Libraries}.

Lemma np_std_bessel (xs : list float64) : np_std xs 1 = bessel_std xs.
Proof. unfold np_std, bessel_std. now rewrite map_map. Qed.

Lemma group_medians_std_spec (sample : list float64) (reference_sigma : float64) :
  fdiv (group_medians_std sample (length sample / 5) 5) reference_sigma =
  spec_mu_stab sample reference_sigma.
Proof.
  unfold group_medians_std, spec_mu_stab.
  now rewrite reshape_complete_chunks, np_std_bessel.
Qed.
End Subgroups.

(* ================================================================== *)
(** * The snapshot indices *)

Section Snapshot.
Context {L : Libraries}.

Lemma test55_estimate_fields (data : list float64) (fit use_abs : bool) (res : estimate) :
  Test55.get_robust_sigma_and_mu data fit use_abs = Ok res ->
  cleaned data use_abs <> [] ->
  exists s, sigma_equiv res = Some s /\ data_used res = Some (cleaned data use_abs).
Proof.
  unfold Test55.get_robust_sigma_and_mu. fold (cleaned data use_abs).
  intros H Hne. destruct (fit && _).
  - destruct (Fitter_get_best _) as [[n ps]|e]; simpl in H; [|discriminate].
    injection H as <-. simpl. eauto.
  - destruct (length (cleaned data use_abs) =? 0)%nat eqn:E0.
    + apply length_zero_nil in E0. contradiction.
    + injection H as <-. simpl. eauto.
Qed.

Lemma histogramm_estimate_fields (data : list float64) (fit use_abs : bool) (res : estimate) :
  Histogramm.get_robust_sigma_and_mu data fit use_abs = Ok res ->
  exists s, sigma_equiv res = Some s /\
            data_used res = Some (if use_abs then map np_abs data else data).
Proof.
  unfold Histogramm.get_robust_sigma_and_mu. intros H. destruct fit.
  - destruct (Fitter_get_best _) as [[n ps]|e]; simpl in H; [|discriminate].
    injection H as <-. simpl. eauto.
  - destruct (length _ =? 0)%nat; injection H as <-; simpl; eauto.
Qed.

(** The indices of [plot_histogramm] once the estimator has returned. *)
Lemma test55_snapshot (df : list row) (ref : float64) (use_abs : bool) (res : estimate) :
  let raw := drop_nan (map value df) in
  let sample := cleaned (map value df) use_abs in
  (5 <= length raw)%nat ->
  Test55.get_robust_sigma_and_mu raw true use_abs = Ok res ->
  exists s,
    sigma_equiv res = Some s /\
    Test55.plot_histogramm df ref use_abs =
    Ok (Some (if truthy ref then fdiv s ref else Fin 0,
              if (1 <? length sample / 5)%nat
              then (if truthy ref then spec_mu_stab sample ref else Fin 0)
              else Fin 0)).
Proof.
  intros raw sample Hlen Hres.
  assert (Hsample : cleaned raw use_abs = sample) by apply cleaned_drop_nan.
  assert (Hne : cleaned raw use_abs <> []).
  { intros Hnil. apply (f_equal (@length _)) in Hnil.
    rewrite cleaned_length in Hnil. unfold raw in Hnil, Hlen.
    rewrite drop_nan_idem in Hnil. simpl in Hnil. lia. }
  destruct (test55_estimate_fields _ _ _ Hres Hne) as (s & Hs & Hd).
  exists s. split; [exact Hs|].
  unfold Test55.plot_histogramm. fold raw.
  replace (length raw <? 5)%nat with false by (symmetry; apply Nat.ltb_ge; exact Hlen).
  rewrite Hres. cbn [bind]. rewrite Hd, Hs, Hsample. cbn [getitem bind].
  destruct (truthy ref); cbn [bind]; rewrite <- ?group_medians_std_spec; reflexivity.
Qed.

Lemma test55_snapshot_outcome (df : list row) (ref : float64) (use_abs : bool) :
  let raw := drop_nan (map value df) in
  ((length raw < 5)%nat /\ Test55.plot_histogramm df ref use_abs = Ok None) \/
  ((5 <= length raw)%nat /\
   ((exists e, Test55.get_robust_sigma_and_mu raw true use_abs = Raises e /\
               Test55.plot_histogramm df ref use_abs = Raises e) \/
    (exists res, Test55.get_robust_sigma_and_mu raw true use_abs = Ok res))).
Proof.
  intros raw. destruct (Nat.lt_ge_cases (length raw) 5) as [Hlt|Hge].
  - left. split; [exact Hlt|]. unfold Test55.plot_histogramm. fold raw.
    apply Nat.ltb_lt in Hlt. now rewrite Hlt.
  - right. split; [exact Hge|].
    destruct (Test55.get_robust_sigma_and_mu raw true use_abs) as [res|e] eqn:E.
    + right. eauto.
    + left. exists e. split; [reflexivity|].
      unfold Test55.plot_histogramm. fold raw.
      replace (length raw <? 5)%nat with false by (symmetry; apply Nat.ltb_ge; exact Hge).
      now rewrite E.
Qed.

(** The indices of [plot_snapshot_analysis] once the estimator has
    returned. *)
Lemma histogramm_snapshot (df : list row) (ref : float64) (use_abs : bool) (res : estimate) :
  let raw := drop_nan (map value df) in
  let sample := if use_abs then map np_abs raw else raw in
  Histogramm.get_robust_sigma_and_mu raw true use_abs = Ok res ->
  exists s,
    sigma_equiv res = Some s /\
    Histogramm.plot_snapshot_analysis df ref use_abs =
    Ok (fdiv s ref,
        if (1 <? length sample / 5)%nat then spec_mu_stab sample ref else Fin 0).
Proof.
  intros raw sample Hres.
  destruct (histogramm_estimate_fields _ _ _ Hres) as (s & Hs & Hd).
  exists s. split; [exact Hs|].
  unfold Histogramm.plot_snapshot_analysis. fold raw.
  rewrite Hres. cbn [bind]. rewrite Hd, Hs. fold sample. cbn [getitem bind].
  now rewrite <- group_medians_std_spec.
Qed.

Lemma histogramm_snapshot_raises (df : list row) (ref : float64) (use_abs : bool) (e : exn) :
  Histogramm.get_robust_sigma_and_mu (drop_nan (map value df)) true use_abs = Raises e ->
  Histogramm.plot_snapshot_analysis df ref use_abs = Raises e.
Proof. intros H. unfold Histogramm.plot_snapshot_analysis. now rewrite H. Qed.
End Snapshot.

(* ================================================================== *)
(** * The rolling window *)

Lemma slice_trailing (window_size i : nat) (vals : list float64) :
  (window_size <= i)%nat ->
  slice (i - window_size) i vals = trailing_window window_size i vals.
Proof.
  intros H. unfold slice, trailing_window. rewrite skipn_firstn_comm.
  now replace (i - (i - window_size))%nat with window_size by lia.
Qed.

(** A window of the loop has exactly [window_size] measurements: those at
    the positions [i - window_size], ..., [i - 1], none at or after [i]. *)
Lemma trailing_window_length (window_size i : nat) (vals : list float64) :
  (window_size <= i)%nat -> (i <= length vals)%nat ->
  length (trailing_window window_size i vals) = window_size.
Proof.
  intros H1 H2. unfold trailing_window.
  rewrite firstn_length_le; [reflexivity|]. rewrite length_skipn. lia.
Qed.

Lemma trailing_window_nth (window_size i j : nat) (vals : list float64) :
  (window_size <= i)%nat -> (j < window_size)%nat ->
  nth j (trailing_window window_size i vals) NaN = nth (i - window_size + j) vals NaN.
Proof.
  intros H1 H2. unfold trailing_window.
  rewrite nth_firstn. apply Nat.ltb_lt in H2. rewrite H2.
  now rewrite nth_skipn.
Qed.

Lemma getindex_in_range {A : Type} (l : list A) (i : nat) (d : A) :
  (i < length l)%nat -> getindex l i = Ok (nth i l d).
Proof.
  intros H. unfold getindex. now rewrite (nth_error_nth' l d H).
Qed.

Lemma range_from_spec (step : nat) :
  (0 < step)%nat ->
  forall fuel start stop i,
    (stop <= start + fuel)%nat ->
    (In i (range_from fuel start stop step) <->
     (start <= i < stop)%nat /\ exists k, i = (start + k * step)%nat).
Proof.
  intros Hstep. induction fuel as [|fuel IH]; intros start stop i Hfuel; simpl.
  - split; [contradiction | intros [H _]; lia].
  - destruct (start <? stop)%nat eqn:E.
    + apply Nat.ltb_lt in E. simpl. rewrite IH by lia. split.
      * intros [<- | [Hr [k ->]]].
        -- split; [lia | exists 0%nat; lia].
        -- split; [lia | exists (S k); simpl; lia].
      * intros [Hr [k ->]]. destruct k as [|k]; [left; lia|].
        right. split; [simpl in *; nia | exists k; simpl; lia].
    + apply Nat.ltb_ge in E. split; [contradiction | intros [H _]; lia].
Qed.

Lemma py_range_spec (start stop step i : nat) :
  (0 < step)%nat ->
  (In i (py_range start stop step) <->
   (start <= i < stop)%nat /\ exists k, i = (start + k * step)%nat).
Proof. intros H. apply range_from_spec; [exact H | lia]. Qed.

Lemma range_from_increasing (step : nat) :
  (0 < step)%nat ->
  forall fuel start stop, StronglySorted lt (range_from fuel start stop step).
Proof.
  intros Hstep. induction fuel as [|fuel IH]; intros start stop; simpl; [constructor|].
  destruct (start <? stop)%nat; [|constructor].
  constructor; [apply IH|].
  assert (H : forall f s, Forall (fun j => (s <= j)%nat) (range_from f s stop step)).
  { induction f as [|f IHf]; intros s; simpl; [constructor|].
    destruct (s <? stop)%nat; [|constructor].
    constructor; [lia|]. eapply Forall_impl; [|apply IHf]. simpl. intros; lia. }
  eapply Forall_impl; [|apply H]. simpl. intros; lia.
Qed.

Lemma py_range_increasing (start stop step : nat) :
  (0 < step)%nat -> StronglySorted lt (py_range start stop step).
Proof. intros H. now apply range_from_increasing. Qed.

Lemma sort_values_sorted (df : list row) :
  StronglySorted Z.le (map date (sort_values df)).
Proof.
  apply Sorted_StronglySorted; [intros x y z; apply Z.le_trans|].
  assert (H : Sorted (fun r1 r2 => (date r1 <= date r2)%Z) (sort_values df)).
  { apply isort_sorted.
    - intros x y E. now apply Z.leb_le.
    - intros x y E. apply Z.leb_gt in E. lia. }
  induction H as [|r l _ IH Hhd]; simpl; constructor; [exact IH|].
  destruct Hhd; simpl; constructor. assumption.
Qed.

Lemma sort_values_perm (df : list row) : Permutation df (sort_values df).
Proof. apply isort_perm. Qed.

Lemma fold_push_trend (pts : list TimelinePoint) (lists : trend) :
  fold_left push pts lists =
  let '(s, m, d) := lists in
  (s ++ map sigma_stab pts, m ++ map mu_stab pts, d ++ map timestamp pts).
Proof.
  revert lists. induction pts as [|p pts IH]; intros [[s m] d]; simpl.
  - now rewrite !app_nil_r.
  - rewrite IH. simpl. now rewrite <- !app_assoc.
Qed.

(** A loop whose every iteration appends the point of its index, or
    nothing, builds the trend of the points kept. *)
Lemma for_loop_points
    (body : trend -> nat -> outcome trend) (point : nat -> option TimelinePoint)
    (items : list nat) (lists : trend) :
  (forall i l, In i items ->
     body l i = Ok (match point i with Some p => push l p | None => l end)) ->
  for_loop body lists items = Ok (fold_left push (kept (map point items)) lists).
Proof.
  revert lists. induction items as [|i items IH]; intros lists Hbody; simpl.
  - reflexivity.
  - rewrite Hbody by (now left). simpl. rewrite IH by (intros; apply Hbody; now right).
    unfold kept. simpl. rewrite fold_left_app.
    now destruct (point i).
Qed.

(** The same when some iterations raise: if the loop returns, it returns
    the trend of the points kept. *)
Lemma for_loop_points_returned
    (body : trend -> nat -> outcome trend) (point : nat -> option TimelinePoint)
    (items : list nat) (lists result : trend) :
  (forall i l, In i items ->
     body l i = Ok (match point i with Some p => push l p | None => l end) \/
     exists e, body l i = Raises e) ->
  for_loop body lists items = Ok result ->
  result = fold_left push (kept (map point items)) lists.
Proof.
  revert lists. induction items as [|i items IH]; intros lists Hbody; simpl.
  - now intros [= <-].
  - destruct (Hbody i lists (or_introl eq_refl)) as [-> | [e ->]]; simpl; [|discriminate].
    intros H. apply IH in H; [|intros; apply Hbody; now right].
    rewrite H. unfold kept. simpl. rewrite fold_left_app.
    now destruct (point i).
Qed.

(** Timestamps read at increasing positions of a sorted index are sorted. *)
Lemma kept_timestamps_sorted
    (point : nat -> option TimelinePoint) (index : list Z) (items : list nat) :
  StronglySorted Z.le index ->
  StronglySorted lt items ->
  Forall (fun i => (i < length index)%nat) items ->
  (forall i p, point i = Some p -> timestamp p = nth i index 0%Z) ->
  Sorted Z.le (map timestamp (kept (map point items))).
Proof.
  intros Hidx Hitems Hin Hts.
  assert (Hnth : forall i j, (i <= j)%nat -> (j < length index)%nat ->
                             (nth i index 0 <= nth j index 0)%Z).
  { clear - Hidx. induction Hidx as [|x l Hs IH Hall]; intros i j Hij Hj.
    - simpl in Hj. lia.
    - destruct i as [|i], j as [|j]; simpl in *; try lia.
      + rewrite Forall_forall in Hall. apply Hall, nth_In. lia.
      + apply IH; lia. }
  apply StronglySorted_Sorted.
  induction Hitems as [|i items Hs IH Hall]; simpl; [constructor|].
  inversion Hin as [|? ? Hi Hin']; subst.
  unfold kept in *. simpl. destruct (point i) as [p|] eqn:Ep; simpl; [|now apply IH].
  constructor; [now apply IH|].
  rewrite (Hts _ _ Ep).
  rewrite Forall_forall. intros t Ht.
  apply in_map_iff in Ht. destruct Ht as (p' & <- & Hp').
  apply in_flat_map in Hp'. destruct Hp' as (o & Ho & Hp').
  apply in_map_iff in Ho. destruct Ho as (j & <- & Hj).
  destruct (point j) as [pj|] eqn:Epj; simpl in Hp'; [|contradiction].
  destruct Hp' as [<- | []].
  rewrite (Hts _ _ Epj).
  rewrite Forall_forall in Hall, Hin'.
  apply Hnth; [apply Nat.lt_le_incl, Hall, Hj | apply Hin', Hj].
Qed.

Section Timeline.
Context {L : Libraries}.

Lemma empirical_sigma_nil : empirical_sigma [] = NaN.
Proof. reflexivity. Qed.

Lemma histogramm_iteration
    (vals : list float64) (index : list Z) (ref : float64)
    (window_size : nat) (use_abs : bool) (lists : trend) (i : nat) :
  (window_size <= i)%nat -> (i < length index)%nat ->
  Histogramm.timeline_iteration vals index ref window_size use_abs lists i =
  Ok (match histogramm_point vals index ref window_size use_abs i with
      | Some p => push lists p
      | None => lists
      end).
Proof.
  intros Hws Hi. destruct lists as [[sl ml] dl].
  unfold Histogramm.timeline_iteration, histogramm_point.
  rewrite (getindex_in_range index 0%Z Hi), slice_trailing by exact Hws.
  cbn [bind]. rewrite histogramm_fast. cbv zeta.
  set (sample := if use_abs then map np_abs (trailing_window window_size i vals)
                 else trailing_window window_size i vals).
  destruct sample as [|x r] eqn:E.
  - reflexivity.
  - rewrite <- E. cbn [bind empirical_estimate data_used sigma_equiv getitem].
    destruct (np_isnan (empirical_sigma sample)); [reflexivity|].
    cbn [push timestamp sigma_stab mu_stab].
    rewrite <- group_medians_std_spec.
    destruct (Nat.ltb_spec 2 (length sample / 5)) as [H|H];
      destruct (Nat.leb_spec (length sample / 5) 2) as [H'|H']; try lia; reflexivity.
Qed.

Lemma test55_iteration
    (vals : list float64) (index : list Z) (ref : float64)
    (window_size : nat) (use_abs : bool) (lists : trend) (i : nat) :
  (window_size <= i)%nat -> (i < length index)%nat ->
  Test55.timeline_iteration vals index ref window_size use_abs lists i =
  match cleaned (trailing_window window_size i vals) use_abs with
  | [] => Raises (KeyError "data_used")
  | _ :: _ =>
      Ok (match test55_point vals index ref window_size use_abs i with
          | Some p => push lists p
          | None => lists
          end)
  end.
Proof.
  intros Hws Hi. destruct lists as [[sl ml] dl].
  unfold Test55.timeline_iteration, test55_point.
  rewrite (getindex_in_range index 0%Z Hi), slice_trailing by exact Hws.
  cbn [bind]. rewrite test55_fast.
  fold (cleaned (trailing_window window_size i vals) use_abs).
  set (sample := cleaned (trailing_window window_size i vals) use_abs).
  destruct sample as [|x r] eqn:E.
  - reflexivity.
  - rewrite <- E. cbn [bind empirical_estimate data_used sigma_equiv getitem].
    destruct (np_isnan (empirical_sigma sample)); [reflexivity|].
    cbn [push timestamp sigma_stab mu_stab].
    rewrite <- group_medians_std_spec.
    destruct (Nat.ltb_spec 2 (length sample / 5)) as [H|H];
      destruct (Nat.leb_spec (length sample / 5) 2) as [H'|H']; try lia;
      destruct (truthy ref); reflexivity.
Qed.


(** The trend of [histogramm.py]: the loop visits the positions
    [window_size], [window_size + 5], ... below the length of the series,
    sorted by date, and keeps the point of every window whose equivalent
    sigma is defined. *)
Lemma histogramm_trend (df : list row) (ref : float64) (window_size : nat) (use_abs : bool) :
  let vals := map value (sort_values df) in
  let index := map date (sort_values df) in
  Histogramm.plot_timeline_analysis df ref window_size use_abs =
  Ok (trend_of (kept (map (histogramm_point vals index ref window_size use_abs)
                          (py_range window_size (length vals) 5)))).
Proof.
  intros vals index. unfold Histogramm.plot_timeline_analysis. fold vals index.
  unfold Histogramm.step.
  rewrite for_loop_points with (point := histogramm_point vals index ref window_size use_abs).
  - now rewrite fold_push_trend.
  - intros i l Hin. apply py_range_spec in Hin; [|lia].
    apply histogramm_iteration; [lia|].
    unfold index, vals in *. rewrite length_map in *. lia.
Qed.

(** The trend of [test55.py], when the loop returns. *)
Lemma test55_trend (df : list row) (ref : float64) (window_size : nat) (use_abs : bool)
    (result : trend) :
  let vals := map value (sort_values df) in
  let index := map date (sort_values df) in
  Test55.plot_timeline_analysis df ref window_size use_abs = Ok result ->
  result = trend_of (kept (map (test55_point vals index ref window_size use_abs)
                               (py_range window_size (length vals) 5))).
Proof.
  intros vals index. unfold Test55.plot_timeline_analysis. fold vals index.
  unfold Test55.step. intros H.
  apply for_loop_points_returned
    with (point := test55_point vals index ref window_size use_abs) in H.
  - now rewrite fold_push_trend in H.
  - intros i l Hin. apply py_range_spec in Hin; [|lia].
    rewrite test55_iteration; [| lia |].
    + destruct (cleaned _ _); [right; eauto | now left].
    + unfold index, vals in *. rewrite length_map in *. lia.
Qed.

(** It returns when every window keeps a value. *)
Lemma test55_trend_returns (df : list row) (ref : float64) (window_size : nat) (use_abs : bool) :
  let vals := map value (sort_values df) in
  let index := map date (sort_values df) in
  (forall i, In i (py_range window_size (length vals) 5) ->
             drop_nan (trailing_window window_size i vals) <> []) ->
  Test55.plot_timeline_analysis df ref window_size use_abs =
  Ok (trend_of (kept (map (test55_point vals index ref window_size use_abs)
                          (py_range window_size (length vals) 5)))).
Proof.
  intros vals index Hkeep. unfold Test55.plot_timeline_analysis. fold vals index.
  unfold Test55.step.
  rewrite for_loop_points with (point := test55_point vals index ref window_size use_abs).
  - now rewrite fold_push_trend.
  - intros i l Hin. pose proof (Hkeep i Hin) as Hne.
    apply py_range_spec in Hin; [|lia].
    rewrite test55_iteration; [| lia |].
    + destruct (cleaned (trailing_window window_size i vals) use_abs) eqn:E; [|reflexivity].
      exfalso. apply Hne. apply length_zero_iff_nil.
      rewrite <- (cleaned_length _ use_abs), E. reflexivity.
    + unfold index, vals in *. rewrite length_map in *. lia.
Qed.
End Timeline.

(* ================================================================== *)
(** * The estimator on missing values and short samples *)

Section EstimatorClaims.
Context {L : Libraries}.


(** C2, on [histogramm.py].  Its exact mode never falls back: whatever the
    length of the sample, the call hands it to the fitter and returns the
    fitter's distribution, or raises what the fitter raises; the fast mode
    returns an estimate without a distribution, so the two modes never
    agree. *)
Theorem histogramm_exact_mode_always_fits (data : list float64) (use_abs : bool) :
  let sample := if use_abs then map np_abs data else data in
  match Histogramm.get_robust_sigma_and_mu data true use_abs with
  | Ok res =>
      exists name ps, Fitter_get_best sample = Ok (name, ps) /\
                      dist_obj res = Some (Some (name, ps)) /\
                      dist_name res = Some name
  | Raises e => Fitter_get_best sample = Raises e
  end /\
  (exists res, Histogramm.get_robust_sigma_and_mu data false use_abs = Ok res /\
               (dist_obj res = Some None \/ dist_obj res = None)) /\
  Histogramm.get_robust_sigma_and_mu data true use_abs <>
  Histogramm.get_robust_sigma_and_mu data false use_abs.
Proof.
  intros sample.
  assert (Hfast : exists res,
             Histogramm.get_robust_sigma_and_mu data false use_abs = Ok res /\
             (dist_obj res = Some None \/ dist_obj res = None)).
  { rewrite histogramm_fast. fold sample. cbv zeta.
    destruct sample; eexists; (split; [reflexivity|]); simpl; auto. }
  assert (Hexact :
    match Histogramm.get_robust_sigma_and_mu data true use_abs with
    | Ok res =>
        exists name ps, Fitter_get_best sample = Ok (name, ps) /\
                        dist_obj res = Some (Some (name, ps)) /\
                        dist_name res = Some name
    | Raises e => Fitter_get_best sample = Raises e
    end).
  { unfold Histogramm.get_robust_sigma_and_mu. fold sample.
    destruct (Fitter_get_best sample) as [[name ps]|e]; simpl; eauto. }
  repeat split; try assumption.
  intros Heq. rewrite Heq in Hexact.
  destruct Hfast as (res & Hres & Hd). rewrite Hres in Hexact.
  destruct Hexact as (name & ps & _ & Hobj & _).
  destruct Hd as [Hd|Hd]; congruence.
Qed.

(** The estimate of [test55.py] depends on the non-missing values only,
    and the sample it reports holds none that is missing. *)
Lemma test55_depends_on_present_values (data : list float64) (fit use_abs : bool) :
  Test55.get_robust_sigma_and_mu data fit use_abs =
  Test55.get_robust_sigma_and_mu (drop_nan data) fit use_abs /\
  when_returned
    (fun res => forall sample, data_used res = Some sample ->
                               sample = cleaned (drop_nan data) use_abs /\
                               existsb np_isnan sample = false)
    (Test55.get_robust_sigma_and_mu data fit use_abs).
Proof.
  split; [symmetry; apply test55_ignores_missing|].
  destruct (Test55.get_robust_sigma_and_mu data fit use_abs) as [res|e] eqn:E;
    simpl; [|exact I].
  intros sample Hd. destruct (test55_data_used _ _ _ E Hd) as [-> _].
  split; [now rewrite cleaned_drop_nan | apply drop_nan_no_nan].
Qed.

(** C4, on [histogramm.py].  Its estimator drops nothing: in both modes the
    sample it reports is its input, missing values included (after the
    absolute value, when requested), and the fitter receives them. *)
Theorem histogramm_keeps_missing_values (data : list float64) (fit use_abs : bool) :
  let sample := if use_abs then map np_abs data else data in
  when_returned (fun res => data_used res = Some sample)
    (Histogramm.get_robust_sigma_and_mu data fit use_abs) /\
  existsb np_isnan sample = existsb np_isnan data /\
  match Histogramm.get_robust_sigma_and_mu data true use_abs with
  | Ok _ => returns (Fitter_get_best sample)
  | Raises e => Fitter_get_best sample = Raises e
  end.
Proof.
  intros sample. split; [|split].
  - destruct (Histogramm.get_robust_sigma_and_mu data fit use_abs) as [res|e] eqn:E;
      simpl; [|exact I].
    now destruct (histogramm_estimate_fields _ _ _ E) as (s & _ & Hd).
  - unfold sample. destruct use_abs; [|reflexivity].
    induction data as [|x data IH]; simpl; [reflexivity|].
    now rewrite np_isnan_abs, IH.
  - unfold Histogramm.get_robust_sigma_and_mu. fold sample.
    destruct (Fitter_get_best sample) as [[name ps]|e]; simpl; [|reflexivity].
    now eexists.
Qed.

(** On a sample with no value left after the missing ones are dropped, the
    fast mode of [histogramm.py] returns an estimate whose equivalent sigma,
    median and bounds are not-a-number. *)
Lemma histogramm_empty_estimate (data : list float64) (use_abs : bool) :
  drop_nan data = [] ->
  exists res,
    Histogramm.get_robust_sigma_and_mu data false use_abs = Ok res /\
    sigma_equiv res = Some NaN /\ median res = Some NaN /\
    lsl res = Some NaN /\ usl res = Some NaN.
Proof.
  intros Hempty.
  assert (Hc : cleaned data use_abs = []).
  { apply length_zero_iff_nil. now rewrite cleaned_length, Hempty. }
  destruct (histogramm_fast_fields data use_abs) as (res & Hres & Hs & Hm & Hl & Hu & _).
  exists res. split; [exact Hres|].
  assert (Hd : drop_nan (if use_abs then map np_abs data else data) = []) by exact Hc.
  unfold empirical_sigma in Hs.
  rewrite !np_nanquantile_all_missing in Hs by exact Hd.
  rewrite np_nanquantile_all_missing in Hl by exact Hd.
  rewrite np_nanquantile_all_missing in Hu by exact Hd.
  rewrite np_nanmedian_all_missing in Hm by exact Hd. auto.
Qed.

(** C3, on [test55.py].  On a sample with no value left after the missing
    ones are dropped, its estimator returns, in either mode, the dict that
    holds a not-a-number sigma_equiv and nothing else: no median, no bounds,
    no source, no sample used.  That is not the undefined estimate of the
    specification. *)
Theorem test55_empty_estimate_truncated (data : list float64) (fit use_abs : bool) :
  drop_nan data = [] ->
  Test55.get_robust_sigma_and_mu data fit use_abs = Ok sigma_only_estimate /\
  ~ undefined_estimate sigma_only_estimate.
Proof.
  intros Hempty.
  assert (Hc : cleaned data use_abs = []).
  { apply length_zero_iff_nil. now rewrite cleaned_length, Hempty. }
  split.
  - destruct fit; [rewrite test55_small by (rewrite Hempty; simpl; lia)|];
      rewrite test55_fast, Hc; reflexivity.
  - intros (_ & Hm & _). discriminate Hm.
Qed.
End EstimatorClaims.

Lemma test55_empty_estimate_truncated_witness :
  drop_nan [NaN; NaN] = [] /\
  @Test55.get_robust_sigma_and_mu demo_libraries [NaN; NaN] true false =
  Ok sigma_only_estimate /\
  ~ undefined_estimate (@sigma_only_estimate demo_libraries).
Proof.
  split; [reflexivity|].
  apply (@test55_empty_estimate_truncated demo_libraries [NaN; NaN] true false). reflexivity.
Defined.



Lemma abs_sample_and_bounds_witness :
  drop_nan signed_values <> [] /\
  Forall double_or_missing signed_values /\
  (length (drop_nan signed_values) <= 10)%nat /\
  when_returned (fun res => data_used res = Some (map np_abs (drop_nan signed_values)))
    (@Test55.get_robust_sigma_and_mu demo_libraries signed_values true true) /\
  abs_property (@Test55.get_robust_sigma_and_mu demo_libraries signed_values false true)
    signed_values /\
  abs_property (@Test55.get_robust_sigma_and_mu demo_libraries signed_values true true)
    signed_values /\
  (exists res l u,
     @Histogramm.get_robust_sigma_and_mu demo_libraries signed_values false true = Ok res /\
     lsl res = Some l /\ usl res = Some u /\
     fle (Fin 0) l /\ fle (Fin 0) u) /\
  when_returned (fitted_estimate (map np_abs signed_values))
    (@Histogramm.get_robust_sigma_and_mu demo_libraries signed_values true true).
Proof.
  assert (H1 : drop_nan signed_values <> []) by (unfold signed_values; simpl; discriminate).
  assert (H2 : Forall double_or_missing signed_values).
  { unfold signed_values. repeat constructor; vm_compute; discriminate. }
  assert (H3 : (length (drop_nan signed_values) <= 10)%nat) by (vm_compute; lia).
  destruct (@abs_sample_and_bounds demo_libraries signed_values true H1)
    as (A & _ & B & _ & C).
  destruct (B H2) as (B1 & B2 & B3).
  split; [exact H1|]. split; [exact H2|]. split; [exact H3|].
  split; [exact A|]. split; [exact B1|]. split; [exact (B2 H3)|]. split; [exact B3 | exact C].
Defined.

(** C6 as stated fails in four ways.  On a sample with an infinity the
    upper bound of the fast mode is not-a-number in both scripts.  In exact
    mode the bounds are the quantiles of the fitted family, which the code
    does not clamp: a normal family gives a negative lower bound.
    [histogramm.py] keeps the missing values in the sample it reports.  And
    on the empty sample [test55.py] reports no sample and no bounds, and the
    bounds of [histogramm.py] are not-a-number. *)
Lemma abs_property_fails :
  ~ abs_property (@Test55.get_robust_sigma_and_mu demo_libraries with_infinity false true)
      with_infinity /\
  ~ abs_property (@Histogramm.get_robust_sigma_and_mu demo_libraries with_infinity false true)
      with_infinity /\
  ~ abs_property (@Test55.get_robust_sigma_and_mu demo_libraries eleven_values true true)
      eleven_values /\
  ~ abs_property (@Histogramm.get_robust_sigma_and_mu demo_libraries five_values true true)
      five_values /\
  ~ abs_property
      (@Histogramm.get_robust_sigma_and_mu demo_libraries missing_and_negative false true)
      missing_and_negative /\
  ~ abs_property (@Test55.get_robust_sigma_and_mu demo_libraries [] false true) [] /\
  ~ abs_property (@Histogramm.get_robust_sigma_and_mu demo_libraries [] false true) [].
Proof.
  repeat split.
  - intros (res & l & u & Hres & _ & _ & Hu & _ & Hu0).
    vm_compute in Hres. injection Hres as <-. injection Hu as <-. discriminate Hu0.
  - intros (res & l & u & Hres & _ & _ & Hu & _ & Hu0).
    vm_compute in Hres. injection Hres as <-. injection Hu as <-. discriminate Hu0.
  - intros (res & l & u & Hres & _ & Hl & _ & Hl0 & _).
    vm_compute in Hres. injection Hres as <-. injection Hl as <-. discriminate Hl0.
  - intros (res & l & u & Hres & _ & Hl & _ & Hl0 & _).
    vm_compute in Hres. injection Hres as <-. injection Hl as <-. discriminate Hl0.
  - intros (res & l & u & Hres & Hd & _).
    vm_compute in Hres. injection Hres as <-. discriminate Hd.
  - intros (res & l & u & Hres & Hd & _). injection Hres as <-. discriminate Hd.
  - intros (res & l & u & Hres & _ & Hl & _ & Hl0 & _).
    injection Hres as <-. injection Hl as <-. discriminate Hl0.
Qed.

(* ================================================================== *)
(** * The reference sigma *)

Lemma fdiv_nan_r (x : float64) : fdiv x NaN = NaN.
Proof. now destruct x. Qed.

Lemma fdiv_zero_not_finite (x : float64) : np_isfinite (fdiv x (Fin 0)) = false.
Proof.
  destruct x as [| s | p]; simpl; try reflexivity.
  now destruct (Qzero_bool p).
Qed.

Section Reference.
Context {L : Libraries}.

Lemma spec_mu_stab_nan (sample : list float64) : spec_mu_stab sample NaN = NaN.
Proof. apply fdiv_nan_r. Qed.

Lemma test55_snapshot_sample_length (df : list row) (use_abs : bool) :
  length (cleaned (map value df) use_abs) = length (drop_nan (map value df)).
Proof. apply cleaned_length. Qed.

Lemma histogramm_snapshot_sample_length (raw : list float64) (use_abs : bool) :
  length (if use_abs then map np_abs raw else raw) = length raw.
Proof. destruct use_abs; [apply length_map | reflexivity]. Qed.

(** C1, amended.  With a reference sigma of zero, the snapshot of
    [test55.py] gives sigma_stab = 0 and mu_stab = 0, and the snapshot of
    [histogramm.py] divides: its sigma_stab is an infinity or not-a-number,
    and so is its mu_stab when more than one subgroup is complete (0
    otherwise).  With a not-a-number reference, both scripts give
    sigma_stab = not-a-number, and mu_stab = not-a-number when more than one
    subgroup is complete, 0 otherwise.  Whether a snapshot returns does not
    depend on the reference. *)
Theorem undefined_reference_indices (df : list row) (use_abs : bool) :
  let k := (length (drop_nan (map value df)) / 5)%nat in
  when_returned (fun r => r = None \/ r = Some (Fin 0, Fin 0))
    (Test55.plot_histogramm df (Fin 0) use_abs) /\
  when_returned
    (fun r => r = None \/ r = Some (NaN, if (1 <? k)%nat then NaN else Fin 0))
    (Test55.plot_histogramm df NaN use_abs) /\
  when_returned (fun r => r = (NaN, if (1 <? k)%nat then NaN else Fin 0))
    (Histogramm.plot_snapshot_analysis df NaN use_abs) /\
  when_returned
    (fun r => np_isfinite (fst r) = false /\
              if (1 <? k)%nat then np_isfinite (snd r) = false else snd r = Fin 0)
    (Histogramm.plot_snapshot_analysis df (Fin 0) use_abs) /\
  (forall ref ref',
     returns (Test55.plot_histogramm df ref use_abs) ->
     returns (Test55.plot_histogramm df ref' use_abs)) /\
  (forall ref ref',
     returns (Histogramm.plot_snapshot_analysis df ref use_abs) ->
     returns (Histogramm.plot_snapshot_analysis df ref' use_abs)).
Proof.
  intros k.
  assert (H55 : forall ref,
    when_returned
      (fun r => r = None \/
                exists s, r = Some (if truthy ref then fdiv s ref else Fin 0,
                                    if (1 <? k)%nat
                                    then (if truthy ref
                                          then spec_mu_stab (cleaned (map value df) use_abs) ref
                                          else Fin 0)
                                    else Fin 0))
      (Test55.plot_histogramm df ref use_abs)).
  { intros ref.
    destruct (test55_snapshot_outcome df ref use_abs)
      as [[_ ->] | [Hge [(e & _ & ->) | (res & Hres)]]]; simpl; auto.
    destruct (test55_snapshot df ref use_abs Hge Hres) as (s & _ & ->). simpl.
    right. exists s. unfold k. now rewrite <- test55_snapshot_sample_length with (use_abs := use_abs). }
  assert (HH : forall ref,
    when_returned
      (fun r => exists s, r = (fdiv s ref,
                               if (1 <? k)%nat
                               then spec_mu_stab
                                      (if use_abs then map np_abs (drop_nan (map value df))
                                       else drop_nan (map value df)) ref
                               else Fin 0))
      (Histogramm.plot_snapshot_analysis df ref use_abs)).
  { intros ref.
    destruct (Histogramm.get_robust_sigma_and_mu (drop_nan (map value df)) true use_abs)
      as [res|e] eqn:E.
    - destruct (histogramm_snapshot df ref use_abs E) as (s & _ & ->). simpl.
      exists s. unfold k. now rewrite histogramm_snapshot_sample_length.
    - now rewrite (histogramm_snapshot_raises df ref use_abs E). }
  repeat split.
  - specialize (H55 (Fin 0)).
    destruct (Test55.plot_histogramm df (Fin 0) use_abs); simpl in *; [|exact I].
    destruct H55 as [-> | [s ->]]; [now left | right].
    now destruct (1 <? k)%nat.
  - specialize (H55 NaN).
    destruct (Test55.plot_histogramm df NaN use_abs); simpl in *; [|exact I].
    destruct H55 as [-> | [s ->]]; [now left | right].
    now rewrite fdiv_nan_r, spec_mu_stab_nan.
  - specialize (HH NaN).
    destruct (Histogramm.plot_snapshot_analysis df NaN use_abs); simpl in *; [|exact I].
    destruct HH as [s ->]. now rewrite fdiv_nan_r, spec_mu_stab_nan.
  - specialize (HH (Fin 0)).
    destruct (Histogramm.plot_snapshot_analysis df (Fin 0) use_abs); simpl in *; [|exact I].
    destruct HH as [s ->]. simpl. split; [apply fdiv_zero_not_finite|].
    destruct (1 <? k)%nat; [apply fdiv_zero_not_finite | reflexivity].
  - intros ref ref' [r Hr].
    destruct (test55_snapshot_outcome df ref use_abs)
      as [[Hlt _] | [Hge [(e & _ & He) | (res & Hres)]]].
    + destruct (test55_snapshot_outcome df ref' use_abs)
        as [[_ ->] | [Hge _]]; [now eexists | lia].
    + congruence.
    + destruct (test55_snapshot df ref' use_abs Hge Hres) as (s & _ & ->). now eexists.
  - intros ref ref' [r Hr].
    destruct (Histogramm.get_robust_sigma_and_mu (drop_nan (map value df)) true use_abs)
      as [res|e] eqn:E.
    + destruct (histogramm_snapshot df ref' use_abs E) as (s & _ & ->). now eexists.
    + rewrite (histogramm_snapshot_raises df ref use_abs E) in Hr. discriminate.
Qed.
End Reference.

(** C1 as stated fails for a zero reference: on five values, the snapshot of
    [test55.py] returns sigma_stab = 0 and mu_stab = 0, not an undefined
    value. *)
Lemma zero_reference_coerced_to_zero :
  @Test55.plot_histogramm demo_libraries (series five_values) (Fin 0) false =
  Ok (Some (Fin 0, Fin 0)) /\
  ~ (exists s m,
       @Test55.plot_histogramm demo_libraries (series five_values) (Fin 0) false =
       Ok (Some (s, m)) /\
       np_isnan s = true /\ np_isnan m = true).
Proof.
  split; [reflexivity|].
  intros (s & m & H & Hs & _). injection H as <- <-. discriminate Hs.
Qed.

(* ================================================================== *)
(** * mu-STAB *)

Section MuStab.
Context {L : Libraries}.


End MuStab.

(* ================================================================== *)
(** * The trend *)

Lemma for_loop_raises
    (body : trend -> nat -> outcome trend) (items : list nat) (lists : trend) (e : exn) :
  (forall i l, In i items -> returns (body l i) \/ body l i = Raises e) ->
  (exists i, In i items /\ forall l, body l i = Raises e) ->
  for_loop body lists items = Raises e.
Proof.
  revert lists. induction items as [|i0 items IH]; intros lists Hall (i & Hin & Hi).
  - contradiction.
  - simpl. destruct (Hall i0 lists (or_introl eq_refl)) as [[l' Hl'] | Hr].
    + rewrite Hl'. simpl. destruct Hin as [<- | Hin].
      * rewrite Hi in Hl'. discriminate.
      * apply IH; [intros; apply Hall; now right | eauto].
    + now rewrite Hr.
Qed.

Lemma trend_of_well_formed
    (point : nat -> option TimelinePoint) (index : list Z) (items : list nat) :
  StronglySorted Z.le index ->
  StronglySorted lt items ->
  Forall (fun i => (i < length index)%nat) items ->
  (forall i p, point i = Some p -> timestamp p = nth i index 0%Z) ->
  trend_well_formed (trend_of (kept (map point items))).
Proof.
  intros H1 H2 H3 H4. unfold trend_well_formed, trend_of.
  rewrite !length_map. repeat split.
  now apply kept_timestamps_sorted with (index := index).
Qed.

Section Trend.
Context {L : Libraries}.

Lemma histogramm_point_timestamp
    (vals : list float64) (index : list Z) (ref : float64)
    (window_size : nat) (use_abs : bool) (i : nat) (p : TimelinePoint) :
  histogramm_point vals index ref window_size use_abs i = Some p ->
  timestamp p = nth i index 0%Z.
Proof.
  unfold histogramm_point. destruct (np_isnan _); [discriminate|].
  now intros [= <-].
Qed.

Lemma test55_point_timestamp
    (vals : list float64) (index : list Z) (ref : float64)
    (window_size : nat) (use_abs : bool) (i : nat) (p : TimelinePoint) :
  test55_point vals index ref window_size use_abs i = Some p ->
  timestamp p = nth i index 0%Z.
Proof.
  unfold test55_point. destruct (np_isnan _); [discriminate|].
  now intros [= <-].
Qed.

Lemma positions_in_range (df : list row) (window_size : nat) :
  Forall (fun i => (i < length (map date (sort_values df)))%nat)
         (py_range window_size (length (map value (sort_values df))) 5).
Proof.
  apply Forall_forall. intros i Hin. apply py_range_spec in Hin; [|lia].
  rewrite length_map in *. lia.
Qed.

(** C9, on [test55.py].  As soon as one window of the loop holds no value
    that is not missing (or is empty), the trend is not built: the estimator
    answers the dict that only holds sigma_equiv, the loop reads its
    ['data_used'] before testing sigma_equiv, and the call raises [KeyError]
    instead of skipping the window. *)
Theorem test55_trend_raises_on_missing_window
    (df : list row) (ref : float64) (window_size : nat) (use_abs : bool) :
  let vals := map value (sort_values df) in
  (exists i, In i (py_range window_size (length vals) 5) /\
             drop_nan (trailing_window window_size i vals) = []) ->
  Test55.plot_timeline_analysis df ref window_size use_abs =
  Raises (KeyError "data_used").
Proof.
  intros vals (i & Hin & Hempty).
  unfold Test55.plot_timeline_analysis. fold vals. unfold Test55.step.
  set (index := map date (sort_values df)).
  assert (Hpos : forall j, In j (py_range window_size (length vals) 5) ->
                           (window_size <= j)%nat /\ (j < length index)%nat).
  { intros j Hj. apply py_range_spec in Hj; [|lia].
    unfold index, vals in *. rewrite length_map in *. lia. }
  apply for_loop_raises.
  - intros j l Hj. destruct (Hpos j Hj) as [Hws Hlt].
    rewrite test55_iteration by assumption.
    destruct (cleaned _ _); [now right | left; now eexists].
  - exists i. split; [exact Hin|]. intros l. destruct (Hpos i Hin) as [Hws Hlt].
    rewrite test55_iteration by assumption.
    replace (cleaned (trailing_window window_size i vals) use_abs) with (@nil float64);
      [reflexivity|].
    symmetry. apply length_zero_iff_nil. now rewrite cleaned_length, Hempty.
Qed.

(** C10.  Both scripts sort the table by date themselves; a trend they
    return has three lists of one length and timestamps that do not
    decrease, and [histogramm.py] always returns one. *)
Theorem trend_sorted_and_aligned
    (df : list row) (ref : float64) (window_size : nat) (use_abs : bool) :
  Permutation df (sort_values df) /\
  StronglySorted Z.le (map date (sort_values df)) /\
  when_returned trend_well_formed
    (Test55.plot_timeline_analysis df ref window_size use_abs) /\
  when_returned trend_well_formed
    (Histogramm.plot_timeline_analysis df ref window_size use_abs) /\
  returns (Histogramm.plot_timeline_analysis df ref window_size use_abs).
Proof.
  split; [apply sort_values_perm|]. split; [apply sort_values_sorted|].
  assert (Hwf : forall point,
    (forall i p, point i = Some p -> timestamp p = nth i (map date (sort_values df)) 0%Z) ->
    trend_well_formed
      (trend_of (kept (map point
         (py_range window_size (length (map value (sort_values df))) 5))))).
  { intros point Hts.
    apply trend_of_well_formed with (index := map date (sort_values df)).
    - apply sort_values_sorted.
    - apply py_range_increasing. lia.
    - apply positions_in_range.
    - exact Hts. }
  split; [|split].
  - destruct (Test55.plot_timeline_analysis df ref window_size use_abs) as [t|e] eqn:E;
      simpl; [|exact I].
    apply test55_trend in E. rewrite E. apply Hwf.
    intros i p. apply test55_point_timestamp.
  - rewrite histogramm_trend. simpl. apply Hwf.
    intros i p. apply histogramm_point_timestamp.
  - rewrite histogramm_trend. now eexists.
Qed.
End Trend.

Lemma test55_trend_raises_on_missing_window_witness :
  (exists i,
     In i (py_range 2 (length (map value (sort_values (series missing_then_one)))) 5) /\
     drop_nan (trailing_window 2 i (map value (sort_values (series missing_then_one)))) = []) /\
  @Test55.plot_timeline_analysis demo_libraries (series missing_then_one) (Fin 1) 2 false =
  Raises (KeyError "data_used").
Proof.
  assert (H : exists i,
     In i (py_range 2 (length (map value (sort_values (series missing_then_one)))) 5) /\
     drop_nan (trailing_window 2 i (map value (sort_values (series missing_then_one)))) = []).
  { exists 2%nat. split; [now left | reflexivity]. }
  split; [exact H|].
  exact (@test55_trend_raises_on_missing_window demo_libraries
           (series missing_then_one) (Fin 1) 2%nat false H).
Defined.

(** On the same table, [histogramm.py] skips the window and returns an
    empty trend. *)
Lemma histogramm_trend_skips_missing_window :
  @Histogramm.plot_timeline_analysis demo_libraries (series missing_then_one) (Fin 1) 2 false =
  Ok ([], [], []).
Proof. reflexivity. Qed.



(* ================================================================== *)
(** * Further properties of the estimators *)

Section EstimatorProperties.
Context {L : Libraries}.

(** X1.  In [test55.py], the exact mode on a sample that keeps at most 10
    values after the missing ones are dropped is the fast mode: the call
    returns the empirical estimate, and the fitter is not consulted. *)
Theorem test55_exact_mode_on_small_sample (data : list float64) (use_abs : bool) :
  (length (drop_nan data) <= 10)%nat ->
  Test55.get_robust_sigma_and_mu data true use_abs =
  Test55.get_robust_sigma_and_mu data false use_abs /\
  returns (Test55.get_robust_sigma_and_mu data true use_abs) /\
  when_returned (fun res => dist_obj res = Some None \/ dist_obj res = None)
    (Test55.get_robust_sigma_and_mu data true use_abs).
Proof.
  intros H. rewrite (test55_small data use_abs H).
  split; [reflexivity|]. split; [apply test55_returns_fast|].
  rewrite test55_fast. destruct (cleaned data use_abs); simpl; auto.
Qed.

(** X2.  In [test55.py], two inputs with the same values once the missing
    ones are dropped get the same result, in either mode and with or without
    the absolute value. *)
Theorem test55_same_present_values_same_estimate
    (data data' : list float64) (fit use_abs : bool) :
  drop_nan data = drop_nan data' ->
  Test55.get_robust_sigma_and_mu data fit use_abs =
  Test55.get_robust_sigma_and_mu data' fit use_abs.
Proof.
  intros H. rewrite <- (test55_ignores_missing data), <- (test55_ignores_missing data').
  now rewrite H.
Qed.

(** X3.  In [histogramm.py], the fast mode on a sample whose values are all
    missing returns an estimate whose equivalent sigma, median and bounds
    are not-a-number and whose sample used is the input; the source is
    ['empirical'] unless the input is empty, where the dict has no source. *)
Theorem histogramm_all_missing_estimate (data : list float64) (use_abs : bool) :
  drop_nan data = [] ->
  exists res,
    Histogramm.get_robust_sigma_and_mu data false use_abs = Ok res /\
    sigma_equiv res = Some NaN /\ median res = Some NaN /\
    lsl res = Some NaN /\ usl res = Some NaN /\
    data_used res = Some (if use_abs then map np_abs data else data) /\
    dist_name res = match data with [] => None | _ :: _ => Some "empirical"%string end.
Proof.
  intros Hempty.
  destruct (histogramm_empty_estimate data use_abs Hempty) as (res & Hres & Hs & Hm & Hl & Hu).
  exists res. repeat (split; [assumption|]).
  rewrite histogramm_fast in Hres. cbv zeta in Hres.
  destruct data as [|x data]; destruct use_abs; simpl in Hres; injection Hres as <-;
    split; reflexivity.
Qed.

(** X9.  [plot_histogramm] of [test55.py] returns before computing anything
    exactly when fewer than 5 values are left once the missing ones are
    dropped, whatever the reference. *)
Theorem test55_snapshot_needs_five_values (df : list row) (ref : float64) (use_abs : bool) :
  Test55.plot_histogramm df ref use_abs = Ok None <->
  (length (drop_nan (map value df)) < 5)%nat.
Proof.
  destruct (test55_snapshot_outcome df ref use_abs)
    as [[Hlt Hnone] | [Hge [(e' & He' & Hp) | (res & Hres)]]].
  - rewrite Hnone. split; auto.
  - rewrite Hp. split; [discriminate | lia].
  - destruct (test55_snapshot df ref use_abs Hge Hres) as (s & _ & ->).
    split; [discriminate | lia].
Qed.
End EstimatorProperties.

Lemma test55_exact_mode_on_small_sample_witness :
  (length (drop_nan signed_values) <= 10)%nat /\
  @Test55.get_robust_sigma_and_mu demo_libraries signed_values true true =
  @Test55.get_robust_sigma_and_mu demo_libraries signed_values false true /\
  returns (@Test55.get_robust_sigma_and_mu demo_libraries signed_values true true) /\
  when_returned (fun res => dist_obj res = Some None \/ dist_obj res = None)
    (@Test55.get_robust_sigma_and_mu demo_libraries signed_values true true).
Proof.
  assert (H : (length (drop_nan signed_values) <= 10)%nat) by (vm_compute; lia).
  split; [exact H|].
  exact (@test55_exact_mode_on_small_sample demo_libraries signed_values true H).
Defined.

Lemma test55_same_present_values_same_estimate_witness :
  drop_nan with_missing = drop_nan [Fin 1; Fin 2] /\
  @Test55.get_robust_sigma_and_mu demo_libraries with_missing false false =
  @Test55.get_robust_sigma_and_mu demo_libraries [Fin 1; Fin 2] false false.
Proof.
  assert (H : drop_nan with_missing = drop_nan [Fin 1; Fin 2]) by reflexivity.
  split; [exact H|].
  exact (@test55_same_present_values_same_estimate demo_libraries
           with_missing [Fin 1; Fin 2] false false H).
Defined.

Lemma histogramm_all_missing_estimate_witness :
  drop_nan [NaN; NaN] = [] /\
  exists res,
    @Histogramm.get_robust_sigma_and_mu demo_libraries [NaN; NaN] false false = Ok res /\
    sigma_equiv res = Some NaN /\ median res = Some NaN /\
    lsl res = Some NaN /\ usl res = Some NaN /\
    data_used res = Some [NaN; NaN] /\
    dist_name res = Some "empirical"%string.
Proof.
  split; [reflexivity|].
  exact (@histogramm_all_missing_estimate demo_libraries [NaN; NaN] false eq_refl).
Defined.

(* ================================================================== *)
(** * Further properties of the trend *)

Lemma for_loop_raised
    (body : trend -> nat -> outcome trend) (items : list nat) (lists : trend) (e : exn) :
  for_loop body lists items = Raises e ->
  exists i l, In i items /\ body l i = Raises e.
Proof.
  revert lists. induction items as [|i items IH]; intros lists; simpl; [discriminate|].
  destruct (body lists i) as [l'|e'] eqn:E; simpl.
  - intros H. destruct (IH _ H) as (j & l & Hj & Hb). exists j, l. auto.
  - intros [= ->]. exists i, lists. auto.
Qed.

Lemma py_range_nil (start stop step : nat) :
  (stop <= start)%nat -> py_range start stop step = [].
Proof.
  intros H. unfold py_range. destruct stop as [|stop]; [reflexivity|]. simpl.
  replace (start <? S stop)%nat with false; [reflexivity|].
  symmetry. apply Nat.ltb_ge. exact H.
Qed.

Lemma range_from_length (fuel start stop : nat) :
  (stop <= start + fuel)%nat ->
  length (range_from fuel start stop 5) = ((stop - start + 4) / 5)%nat.
Proof.
  revert start. induction fuel as [|fuel IH]; intros start Hf; cbn [range_from length].
  - replace (stop - start)%nat with 0%nat by lia. reflexivity.
  - destruct (Nat.ltb_spec start stop) as [Hlt|Hge].
    + cbn [length]. rewrite IH by lia.
      destruct (Nat.le_gt_cases (start + 5) stop) as [H5|H5].
      * replace (stop - start + 4)%nat with ((stop - (start + 5) + 4) + 1 * 5)%nat by lia.
        rewrite Nat.div_add by lia. lia.
      * replace (stop - (start + 5))%nat with 0%nat by lia.
        assert (E1 : ((0 + 4) / 5 = 0)%nat) by reflexivity.
        assert (E2 : ((stop - start + 4) / 5 = 1)%nat).
        { replace (stop - start + 4)%nat with ((stop - start - 1) + 1 * 5)%nat by lia.
          rewrite Nat.div_add by lia. rewrite Nat.div_small by lia. reflexivity. }
        rewrite E1, E2. reflexivity.
    + replace (stop - start)%nat with 0%nat by lia. reflexivity.
Qed.

Lemma py_range_length (start stop : nat) :
  length (py_range start stop 5) = ((stop - start + 4) / 5)%nat.
Proof. apply range_from_length. lia. Qed.

Lemma range_from_extends (stop stop' : nat) :
  (stop <= stop')%nat ->
  forall fuel fuel' start,
    (stop <= start + fuel)%nat -> (stop' <= start + fuel')%nat ->
    exists rest,
      range_from fuel' start stop' 5 = range_from fuel start stop 5 ++ rest.
Proof.
  intros Hs. induction fuel as [|fuel IH]; intros fuel' start H1 H2.
  - simpl. eauto.
  - simpl. destruct (Nat.ltb_spec start stop) as [Hlt|Hge]; [|simpl; eauto].
    destruct fuel' as [|fuel']; [lia|]. simpl.
    replace (start <? stop')%nat with true by (symmetry; apply Nat.ltb_lt; lia).
    destruct (IH fuel' (start + 5)%nat) as [rest Hrest]; [lia | lia |].
    exists rest. simpl. now rewrite Hrest.
Qed.

Lemma py_range_extends (start stop stop' : nat) :
  (stop <= stop')%nat ->
  exists rest, py_range start stop' 5 = py_range start stop 5 ++ rest.
Proof. intros H. apply range_from_extends; [exact H | lia | lia]. Qed.

Lemma kept_app {A : Type} (l1 l2 : list (option A)) : kept (l1 ++ l2) = kept l1 ++ kept l2.
Proof. apply flat_map_app. Qed.

Lemma kept_all_points
    (point : nat -> option TimelinePoint) (stamp : nat -> Z) (items : list nat) :
  (forall i, In i items -> exists p, point i = Some p /\ timestamp p = stamp i) ->
  length (kept (map point items)) = length items /\
  map timestamp (kept (map point items)) = map stamp items.
Proof.
  induction items as [|i items IH]; intros H; [split; reflexivity|].
  destruct (H i (or_introl eq_refl)) as (p & Hp & Ht).
  destruct IH as [IH1 IH2]; [intros; apply H; now right|].
  unfold kept in *. simpl. rewrite Hp. simpl. rewrite IH1, IH2, Ht. split; reflexivity.
Qed.

Lemma sort_values_ascending (df : list row) : sorted_by_date (sort_values df).
Proof.
  apply isort_sorted.
  - intros x y E. now apply Z.leb_le.
  - intros x y E. apply Z.leb_gt in E. lia.
Qed.

Lemma increasing_dates_strong (df : list row) :
  increasing_dates df -> StronglySorted (fun r1 r2 => (date r1 < date r2)%Z) df.
Proof. apply Sorted_StronglySorted. intros x y z. apply Z.lt_trans. Qed.

Lemma sorted_by_date_strong (df : list row) :
  sorted_by_date df -> StronglySorted (fun r1 r2 => (date r1 <= date r2)%Z) df.
Proof. apply Sorted_StronglySorted. intros x y z. apply Z.le_trans. Qed.

(** A table whose dates are strictly increasing has one ascending
    arrangement, itself: whatever a sort does with rows of equal date, it
    returns such a table unchanged. *)
Lemma ascending_arrangement_unique (df df' : list row) :
  increasing_dates df -> Permutation df df' -> sorted_by_date df' -> df' = df.
Proof.
  intros Hinc. apply increasing_dates_strong in Hinc.
  revert df'. induction Hinc as [|x t Ht IH Hx]; intros df' Hperm Hs.
  - apply Permutation_nil in Hperm. now subst.
  - apply sorted_by_date_strong in Hs.
    destruct df' as [|y t']; [apply Permutation_sym, Permutation_nil in Hperm; discriminate|].
    inversion Hs as [|? ? Hs' Hy]; subst.
    rewrite Forall_forall in Hx, Hy.
    assert (Hxy : x = y).
    { assert (Iy : In y (x :: t)).
      { eapply Permutation_in; [apply Permutation_sym, Hperm | now left]. }
      assert (Ix : In x (y :: t')).
      { eapply Permutation_in; [exact Hperm | now left]. }
      destruct Iy as [E | Iy]; [exact E|].
      pose proof (Hx y Iy) as Hlt.
      destruct Ix as [E | Ix]; [now symmetry|].
      pose proof (Hy x Ix). lia. }
    subst y. f_equal. apply IH.
    + now apply Permutation_cons_inv in Hperm.
    + now apply StronglySorted_Sorted.
Qed.

Lemma sort_values_increasing_id (df : list row) : increasing_dates df -> sort_values df = df.
Proof.
  intros H. apply ascending_arrangement_unique;
    [exact H | apply sort_values_perm | apply sort_values_ascending].
Qed.

Lemma increasing_dates_prefix (df extra : list row) :
  increasing_dates (df ++ extra) -> increasing_dates df.
Proof.
  unfold increasing_dates. induction df as [|x df IH]; simpl; intros H; [constructor|].
  inversion H as [|? ? Hs Hhd]; subst. constructor; [now apply IH|].
  destruct df as [|y df]; [constructor|]. simpl in Hhd. inversion Hhd; subst. now constructor.
Qed.

Lemma trailing_window_app (window_size i : nat) (vals more : list float64) :
  (window_size <= i)%nat -> (i <= length vals)%nat ->
  trailing_window window_size i (vals ++ more) = trailing_window window_size i vals.
Proof.
  intros H1 H2. unfold trailing_window.
  rewrite skipn_app.
  replace (i - window_size - length vals)%nat with 0%nat by lia. rewrite skipn_O.
  rewrite firstn_app.
  replace (window_size - length (skipn (i - window_size) vals))%nat with 0%nat
    by (rewrite length_skipn; lia).
  now rewrite firstn_O, app_nil_r.
Qed.

Lemma moderate_rows (df : list row) :
  moderate_values df -> exists qs, map value df = map Fin qs /\ moderate qs.
Proof.
  induction 1 as [|r df (q & Hq & Hm) _ (qs & IH & Hqs)]; simpl.
  - exists []. split; [reflexivity | constructor].
  - exists (q :: qs). simpl. rewrite Hq, IH. split; [reflexivity | now constructor].
Qed.

Lemma moderate_abs (qs : list Q) : moderate qs -> moderate (map Qabs qs).
Proof.
  unfold moderate. induction 1 as [|q qs Hq _ IH]; simpl; constructor; [|exact IH].
  now rewrite Qabs_pos by apply Qabs_nonneg.
Qed.

Lemma moderate_window (n k : nat) (qs : list Q) :
  moderate qs -> moderate (firstn n (skipn k qs)).
Proof.
  unfold moderate. intros H.
  rewrite <- (firstn_skipn k qs) in H. apply Forall_app in H. destruct H as [_ H].
  rewrite <- (firstn_skipn n (skipn k qs)) in H. apply Forall_app in H. tauto.
Qed.

(** The equivalent sigma of a window of real numbers without overflow is a
    real number, never not-a-number. *)
Lemma empirical_sigma_finite (qs : list Q) :
  qs <> [] -> moderate qs -> exists s, empirical_sigma (map Fin qs) = Fin s /\ 0 <= s.
Proof.
  intros Hne Hmod.
  destruct (moderate_ranges Hmod) as (Hr & Hs & Hsum).
  destruct (empirical_quantiles_ordered Hne Hr Hs Hsum)
    as (l & m & u & a & b & Hl & _ & Hu & Ha & Hb & Hal & Hlm & Hmu & Hub).
  assert (Hd : u - l <= max_float) by (pose proof (Hs a b Ha Hb); lra).
  exists ((u - l) / 6). unfold empirical_sigma. rewrite Hl, Hu, sigma_of_bounds by lra.
  split; [reflexivity|]. apply Qle_shift_div_l; lra.
Qed.

Lemma trailing_window_finite (window_size i : nat) (qs : list Q) :
  (1 <= window_size)%nat -> (window_size <= i)%nat -> (i <= length qs)%nat ->
  moderate qs ->
  exists w, trailing_window window_size i (map Fin qs) = map Fin w /\ w <> [] /\ moderate w.
Proof.
  intros H0 H1 H2 Hmod. exists (firstn window_size (skipn (i - window_size) qs)).
  unfold trailing_window. rewrite skipn_map, firstn_map. split; [reflexivity|]. split.
  - intros E. apply (f_equal (@length _)) in E.
    rewrite firstn_length_le in E by (rewrite length_skipn; lia). simpl in E. lia.
  - now apply moderate_window.
Qed.

Section TrendProperties.
Context {L : Libraries}.

(** What the loop of [test55.py] does, case by case: it returns the trend of
    its windows when each of them keeps a value, and raises [KeyError] on
    ['data_used'] otherwise. *)
Lemma test55_trend_outcome (df : list row) (ref : float64) (window_size : nat) (use_abs : bool) :
  let vals := map value (sort_values df) in
  let index := map date (sort_values df) in
  let items := py_range window_size (length vals) 5 in
  match Test55.plot_timeline_analysis df ref window_size use_abs with
  | Ok t =>
      (forall i, In i items -> drop_nan (trailing_window window_size i vals) <> []) /\
      t = trend_of (kept (map (test55_point vals index ref window_size use_abs) items))
  | Raises e =>
      e = KeyError "data_used" /\
      exists i, In i items /\ drop_nan (trailing_window window_size i vals) = []
  end.
Proof.
  intros vals index items.
  assert (Hpos : forall j, In j items -> (window_size <= j)%nat /\ (j < length index)%nat).
  { intros j Hj. apply py_range_spec in Hj; [|lia].
    unfold index, vals in *. rewrite length_map in *. lia. }
  assert (Hempty : forall i, drop_nan (trailing_window window_size i vals) = [] <->
                             cleaned (trailing_window window_size i vals) use_abs = []).
  { intros i. rewrite <- !length_zero_iff_nil, cleaned_length. reflexivity. }
  destruct (Test55.plot_timeline_analysis df ref window_size use_abs) as [t|e] eqn:E.
  - split; [|now apply test55_trend].
    intros i Hi Hnil.
    assert (Hr : Test55.plot_timeline_analysis df ref window_size use_abs =
                 Raises (KeyError "data_used")).
    { unfold Test55.plot_timeline_analysis, Test55.step. fold vals index items.
      apply for_loop_raises.
      - intros j l Hj. destruct (Hpos j Hj) as [Hws Hlt].
        rewrite test55_iteration by assumption.
        destruct (cleaned _ _); [now right | left; now eexists].
      - exists i. split; [exact Hi|]. intros l. destruct (Hpos i Hi) as [Hws Hlt].
        rewrite test55_iteration by assumption.
        apply Hempty in Hnil. now rewrite Hnil. }
    congruence.
  - unfold Test55.plot_timeline_analysis, Test55.step in E. fold vals index items in E.
    apply for_loop_raised in E. destruct E as (i & l & Hi & Hb).
    destruct (Hpos i Hi) as [Hws Hlt].
    rewrite test55_iteration in Hb by assumption.
    destruct (cleaned (trailing_window window_size i vals) use_abs) eqn:Ec; [|discriminate].
    injection Hb as <-. split; [reflexivity|].
    exists i. split; [exact Hi|]. now apply Hempty.
Qed.

(** X4.  [plot_timeline_analysis] of [histogramm.py] never raises.  Its
    loop visits the positions [window_size + 5k] below the number of rows of
    the table sorted by date; at each, the window is the [window_size] values
    before the position, the point is dated by the row at the position, and
    it is appended unless the equivalent sigma of the window is not-a-number,
    in which case the window leaves no entry. *)
Theorem histogramm_trend_points (df : list row) (ref : float64) (window_size : nat) (use_abs : bool) :
  let vals := map value (sort_values df) in
  let index := map date (sort_values df) in
  let items := py_range window_size (length df) 5 in
  Histogramm.plot_timeline_analysis df ref window_size use_abs =
  Ok (trend_of (kept (map (histogramm_point vals index ref window_size use_abs) items))) /\
  (forall i, In i items <->
             (window_size <= i < length df)%nat /\ exists k, i = (window_size + k * 5)%nat) /\
  (forall i j, In i items -> (j < window_size)%nat ->
               nth j (trailing_window window_size i vals) NaN =
               nth (i - window_size + j) vals NaN).
Proof.
  intros vals index items.
  assert (Hn : length vals = length df).
  { unfold vals, sort_values. now rewrite length_map, isort_length. }
  split; [|split].
  - unfold items. rewrite <- Hn. apply histogramm_trend.
  - intros i. apply py_range_spec. lia.
  - intros i j Hi Hj. apply py_range_spec in Hi; [|lia].
    apply trailing_window_nth; lia.
Qed.

(** X5.  [plot_timeline_analysis] of [test55.py] raises nothing but
    [KeyError] on ['data_used'], and raises it exactly when one window of
    the loop holds no value that is not missing; otherwise it returns the
    trend of its windows. *)
Theorem test55_trend_returns_or_key_error
    (df : list row) (ref : float64) (window_size : nat) (use_abs : bool) :
  let vals := map value (sort_values df) in
  let index := map date (sort_values df) in
  let items := py_range window_size (length df) 5 in
  match Test55.plot_timeline_analysis df ref window_size use_abs with
  | Ok t =>
      (forall i, In i items -> drop_nan (trailing_window window_size i vals) <> []) /\
      t = trend_of (kept (map (test55_point vals index ref window_size use_abs) items))
  | Raises e =>
      e = KeyError "data_used" /\
      exists i, In i items /\ drop_nan (trailing_window window_size i vals) = []
  end.
Proof.
  intros vals index items.
  assert (Hn : length vals = length df).
  { unfold vals, sort_values. now rewrite length_map, isort_length. }
  unfold items. rewrite <- Hn. apply test55_trend_outcome.
Qed.

(** X7.  A table with no more rows than the window gives the empty trend in
    both scripts, whatever its values and the reference: nothing is
    estimated and nothing is raised. *)
Theorem short_series_empty_trend
    (df : list row) (ref : float64) (window_size : nat) (use_abs : bool) :
  (length df <= window_size)%nat ->
  Test55.plot_timeline_analysis df ref window_size use_abs = Ok ([], [], []) /\
  Histogramm.plot_timeline_analysis df ref window_size use_abs = Ok ([], [], []).
Proof.
  intros H.
  assert (Hn : length (map value (sort_values df)) = length df).
  { unfold sort_values. now rewrite length_map, isort_length. }
  unfold Test55.plot_timeline_analysis, Histogramm.plot_timeline_analysis.
  rewrite Hn. unfold Test55.step, Histogramm.step.
  rewrite py_range_nil by exact H. split; reflexivity.
Qed.

Lemma moderate_values_points
    (df : list row) (ref : float64) (window_size : nat) (use_abs : bool) (i : nat) :
  let vals := map value (sort_values df) in
  let index := map date (sort_values df) in
  moderate_values df -> (1 <= window_size)%nat ->
  In i (py_range window_size (length vals) 5) ->
  drop_nan (trailing_window window_size i vals) <> [] /\
  (exists p, histogramm_point vals index ref window_size use_abs i = Some p /\
             timestamp p = nth i index 0%Z) /\
  (exists p, test55_point vals index ref window_size use_abs i = Some p /\
             timestamp p = nth i index 0%Z).
Proof.
  intros vals index Hreal Hws Hi.
  apply py_range_spec in Hi; [|lia]. destruct Hi as [[Hlo Hhi] _].
  assert (Hsorted : moderate_values (sort_values df)).
  { unfold moderate_values, sort_values. apply isort_Forall. exact Hreal. }
  destruct (moderate_rows Hsorted) as (qs & Hqs & Hmod). fold vals in Hqs.
  rewrite Hqs in *. rewrite length_map in Hhi.
  destruct (@trailing_window_finite window_size i qs) as (w & Hw & Hne & Hwmod); try lia;
    [exact Hmod|].
  rewrite Hw.
  assert (Hsample : exists w', (if use_abs then map np_abs (map Fin w) else map Fin w)
                               = map Fin w' /\ w' <> [] /\ moderate w').
  { destruct use_abs.
    - exists (map Qabs w). split; [apply map_abs_Fin|].
      split; [destruct w; simpl; congruence | now apply moderate_abs].
    - now exists w. }
  destruct Hsample as (w' & Hw' & Hne' & Hmod').
  destruct (empirical_sigma_finite Hne' Hmod') as (s & Hs & _).
  split; [|split].
  - rewrite drop_nan_finite. destruct w; simpl; congruence.
  - unfold histogramm_point. rewrite Hw, Hw', Hs. simpl np_isnan. cbv iota.
    eexists. split; reflexivity.
  - unfold test55_point. rewrite Hw, Hw', drop_nan_finite, Hs. simpl np_isnan. cbv iota.
    eexists. split; reflexivity.
Qed.

Lemma moderate_series_trend
    (df : list row) (ref : float64) (window_size : nat) (use_abs : bool) :
  moderate_values df -> (1 <= window_size)%nat ->
  let items := py_range window_size (length df) 5 in
  (exists s m,
     Test55.plot_timeline_analysis df ref window_size use_abs = Ok (s, m, dates_at df items) /\
     length s = ((length df - window_size + 4) / 5)%nat /\
     length m = ((length df - window_size + 4) / 5)%nat) /\
  (exists s m,
     Histogramm.plot_timeline_analysis df ref window_size use_abs = Ok (s, m, dates_at df items) /\
     length s = ((length df - window_size + 4) / 5)%nat /\
     length m = ((length df - window_size + 4) / 5)%nat).
Proof.
  intros Hreal Hws items.
  assert (Hn : length (map value (sort_values df)) = length df).
  { unfold sort_values. now rewrite length_map, isort_length. }
  assert (Hpts := fun i => @moderate_values_points df ref window_size use_abs i Hreal Hws).
  cbv zeta in Hpts. rewrite Hn in Hpts. fold items in Hpts.
  split.
  - destruct (@kept_all_points
                (test55_point (map value (sort_values df)) (map date (sort_values df))
                              ref window_size use_abs)
                (fun i => nth i (map date (sort_values df)) 0%Z) items) as [Hlen Hts].
    { intros i Hi. apply (Hpts i Hi). }
    do 2 eexists. split.
    + rewrite test55_trend_returns.
      * rewrite Hn. fold items. unfold trend_of. rewrite Hts. reflexivity.
      * rewrite Hn. fold items. intros i Hi. apply (Hpts i Hi).
    + rewrite !length_map, Hlen. unfold items. now rewrite py_range_length.
  - destruct (@kept_all_points
                (histogramm_point (map value (sort_values df)) (map date (sort_values df))
                                  ref window_size use_abs)
                (fun i => nth i (map date (sort_values df)) 0%Z) items) as [Hlen Hts].
    { intros i Hi. apply (Hpts i Hi). }
    do 2 eexists. split.
    + rewrite histogramm_trend. rewrite Hn. fold items.
      unfold trend_of. rewrite Hts. reflexivity.
    + rewrite !length_map, Hlen. unfold items. now rewrite py_range_length.
Qed.

(** X6.  On a table whose values are all real numbers of magnitude at most
    half the largest double (none missing, so that no window overflows) and
    with a window of at least one row, both scripts return a trend with one
    point for every position of the loop.  For n rows their number is
    (n - window_size + 4) div 5, where the difference is 0 for a table
    shorter than the window, and their timestamps are the dates of the
    sorted table at the positions [window_size], [window_size + 5], ... *)
Theorem real_series_trend_is_complete
    (df : list row) (ref : float64) (window_size : nat) (use_abs : bool) :
  moderate_values df -> (1 <= window_size)%nat ->
  let items := py_range window_size (length df) 5 in
  (exists s m,
     Test55.plot_timeline_analysis df ref window_size use_abs = Ok (s, m, dates_at df items) /\
     length s = ((length df - window_size + 4) / 5)%nat /\
     length m = ((length df - window_size + 4) / 5)%nat) /\
  (exists s m,
     Histogramm.plot_timeline_analysis df ref window_size use_abs = Ok (s, m, dates_at df items) /\
     length s = ((length df - window_size + 4) / 5)%nat /\
     length m = ((length df - window_size + 4) / 5)%nat).
Proof. intros H1 H2. exact (moderate_series_trend ref use_abs H1 H2). Qed.
End TrendProperties.

Lemma points_extend
    (point point' : nat -> option TimelinePoint) (items rest : list nat) :
  (forall i, In i items -> point' i = point i) ->
  trend_extends (trend_of (kept (map point items)))
                (trend_of (kept (map point' (items ++ rest)))).
Proof.
  intros H. unfold trend_extends, trend_of.
  rewrite map_app, kept_app, (map_ext_in point' point items H), !map_app.
  now do 3 eexists.
Qed.

Section AppendOnly.
Context {L : Libraries}.

Lemma points_of_longer_series
    (vals more : list float64) (index later : list Z) (ref : float64)
    (window_size : nat) (use_abs : bool) (i : nat) :
  length index = length vals ->
  In i (py_range window_size (length vals) 5) ->
  histogramm_point (vals ++ more) (index ++ later) ref window_size use_abs i =
  histogramm_point vals index ref window_size use_abs i /\
  test55_point (vals ++ more) (index ++ later) ref window_size use_abs i =
  test55_point vals index ref window_size use_abs i /\
  trailing_window window_size i (vals ++ more) = trailing_window window_size i vals.
Proof.
  intros Hlen Hi. apply py_range_spec in Hi; [|lia]. destruct Hi as [[Hlo Hhi] _].
  unfold histogramm_point, test55_point.
  rewrite trailing_window_app by lia.
  rewrite app_nth1 by lia. repeat split.
Qed.

(** X8.  The trend is append-only.  When the dates of a table are strictly
    increasing (sorting by date then returns the table as it is, whatever
    the sort does with rows of equal date) and the table is extended by
    later rows, the trend of the longer table starts with the trend of the
    shorter one: a point is computed from the rows before its position
    only.  In [test55.py], where the call can raise, this holds whenever
    the call on the longer table returns. *)
Theorem trend_is_append_only
    (df extra : list row) (ref : float64) (window_size : nat) (use_abs : bool) :
  increasing_dates (df ++ extra) ->
  (exists t t',
     Histogramm.plot_timeline_analysis df ref window_size use_abs = Ok t /\
     Histogramm.plot_timeline_analysis (df ++ extra) ref window_size use_abs = Ok t' /\
     trend_extends t t') /\
  when_returned
    (fun t' => exists t,
       Test55.plot_timeline_analysis df ref window_size use_abs = Ok t /\
       trend_extends t t')
    (Test55.plot_timeline_analysis (df ++ extra) ref window_size use_abs).
Proof.
  intros Hsorted.
  pose proof (sort_values_increasing_id Hsorted) as Hs'.
  pose proof (sort_values_increasing_id (increasing_dates_prefix df extra Hsorted)) as Hs.
  assert (Hlen : length (map date df) = length (map value df)) by now rewrite !length_map.
  destruct (@py_range_extends window_size (length (map value df))
              (length (map value (df ++ extra)))) as [rest Hrest].
  { rewrite !length_map, length_app. lia. }
  assert (Hpts := fun i => @points_of_longer_series (map value df) (map value extra)
                             (map date df) (map date extra) ref window_size use_abs i Hlen).
  split.
  - do 2 eexists. split; [apply histogramm_trend|]. split; [apply histogramm_trend|].
    cbv zeta. rewrite Hs, Hs', Hrest, (map_app value df extra), (map_app date df extra).
    apply points_extend. intros i Hi. apply (Hpts i Hi).
  - pose proof (test55_trend_outcome (df ++ extra) ref window_size use_abs) as Hbig.
    cbv zeta in Hbig.
    rewrite Hs', Hrest, (map_app value df extra), (map_app date df extra) in Hbig.
    destruct (Test55.plot_timeline_analysis (df ++ extra) ref window_size use_abs)
      as [t'|e]; simpl; [|exact I].
    destruct Hbig as [Hkeep ->].
    eexists. split.
    + apply test55_trend_returns. cbv zeta. rewrite Hs. intros i Hi.
      destruct (Hpts i Hi) as (_ & _ & <-). apply Hkeep. apply in_or_app. now left.
    + cbv zeta. rewrite Hs. apply points_extend. intros i Hi. apply (Hpts i Hi).
Qed.
End AppendOnly.

Lemma short_series_empty_trend_witness :
  (length (series five_values) <= 20)%nat /\
  @Test55.plot_timeline_analysis demo_libraries (series five_values) (Fin 1) 20 false =
  Ok ([], [], []) /\
  @Histogramm.plot_timeline_analysis demo_libraries (series five_values) (Fin 1) 20 false =
  Ok ([], [], []).
Proof.
  assert (H : (length (series five_values) <= 20)%nat) by (vm_compute; lia).
  split; [exact H|].
  exact (@short_series_empty_trend demo_libraries (series five_values) (Fin 1) 20%nat false H).
Defined.

Lemma real_series_trend_is_complete_witness :
  moderate_values (series sixteen_values) /\ (1 <= 5)%nat /\
  (exists s m,
     @Test55.plot_timeline_analysis demo_libraries (series sixteen_values) (Fin 1) 5 true =
     Ok (s, m, dates_at (series sixteen_values)
                 (py_range 5 (length (series sixteen_values)) 5)) /\
     length s = ((length (series sixteen_values) - 5 + 4) / 5)%nat /\
     length m = ((length (series sixteen_values) - 5 + 4) / 5)%nat) /\
  (exists s m,
     @Histogramm.plot_timeline_analysis demo_libraries (series sixteen_values) (Fin 1) 5 true =
     Ok (s, m, dates_at (series sixteen_values)
                 (py_range 5 (length (series sixteen_values)) 5)) /\
     length s = ((length (series sixteen_values) - 5 + 4) / 5)%nat /\
     length m = ((length (series sixteen_values) - 5 + 4) / 5)%nat).
Proof.
  assert (H1 : moderate_values (series sixteen_values)).
  { repeat constructor; eexists; (split; [reflexivity | vm_compute; discriminate]). }
  assert (H2 : (1 <= 5)%nat) by lia.
  split; [exact H1|]. split; [exact H2|].
  exact (@real_series_trend_is_complete demo_libraries (series sixteen_values) (Fin 1)
           5%nat true H1 H2).
Defined.

Lemma trend_is_append_only_witness :
  increasing_dates (series ten_values ++ [mk_row 11 (Fin 4); mk_row 12 NaN]) /\
  (exists t t',
     @Histogramm.plot_timeline_analysis demo_libraries (series ten_values) (Fin 1) 5 false
     = Ok t /\
     @Histogramm.plot_timeline_analysis demo_libraries
       (series ten_values ++ [mk_row 11 (Fin 4); mk_row 12 NaN]) (Fin 1) 5 false = Ok t' /\
     trend_extends t t') /\
  when_returned
    (fun t' => exists t,
       @Test55.plot_timeline_analysis demo_libraries (series ten_values) (Fin 1) 5 false
       = Ok t /\
       trend_extends t t')
    (@Test55.plot_timeline_analysis demo_libraries
       (series ten_values ++ [mk_row 11 (Fin 4); mk_row 12 NaN]) (Fin 1) 5 false).
Proof.
  assert (H : increasing_dates (series ten_values ++ [mk_row 11 (Fin 4); mk_row 12 NaN])).
  { unfold increasing_dates. simpl. repeat constructor; simpl; lia. }
  split; [exact H|].
  exact (@trend_is_append_only demo_libraries (series ten_values)
           [mk_row 11 (Fin 4); mk_row 12 NaN] (Fin 1) 5%nat false H).
Defined.

(* ================================================================== *)
(** * The empirical estimate and the range of the sample *)

Section SampleRange.
Context {L : Libraries}.

(** X11.  In fast mode, on a sample that keeps at least one value and whose
    values are real numbers of magnitude at most half the largest double,
    the two scripts compute the same equivalent sigma, median and bounds,
    and none of the three leaves the range of the values: if every value
    kept lies in [lo, hi] then lo <= lsl <= median <= usl <= hi, and
    sigma_equiv is >= 0. *)
Theorem fast_estimate_within_sample_range
    (data : list float64) (use_abs : bool) (lo hi : Q) :
  Forall moderate_or_missing data ->
  drop_nan data <> [] ->
  within lo hi (cleaned data use_abs) ->
  exists res55 resH (l m u s : Q),
    Test55.get_robust_sigma_and_mu data false use_abs = Ok res55 /\
    Histogramm.get_robust_sigma_and_mu data false use_abs = Ok resH /\
    lsl res55 = Some (Fin l) /\ lsl resH = Some (Fin l) /\
    median res55 = Some (Fin m) /\ median resH = Some (Fin m) /\
    usl res55 = Some (Fin u) /\ usl resH = Some (Fin u) /\
    sigma_equiv res55 = Some (Fin s) /\ sigma_equiv resH = Some (Fin s) /\
    lo <= l /\ l <= m /\ m <= u /\ u <= hi /\ 0 <= s.
Proof.
  intros Hmod Hne Hin.
  destruct (cleaned_moderate use_abs Hmod Hne) as (qs & Hqs & Hqne & Hqmod).
  fold (cleaned data use_abs) in Hqs.
  destruct (moderate_ranges Hqmod) as (Hr & Hs & Hsum).
  destruct (empirical_quantiles_ordered Hqne Hr Hs Hsum)
    as (l & m & u & a & b & Hl & Hm & Hu & Ha & Hb & Hal & Hlm & Hmu & Hub).
  assert (Hlo : lo <= a) by (apply Hin; rewrite Hqs; now apply in_map).
  assert (Hhi : b <= hi) by (apply Hin; rewrite Hqs; now apply in_map).
  assert (Hd : u - l <= max_float) by (pose proof (Hs a b Ha Hb); lra).
  set (sampleH := if use_abs then map np_abs data else data).
  assert (HdH : drop_nan sampleH = map Fin qs) by exact Hqs.
  assert (Hd55 : drop_nan (cleaned data use_abs) = map Fin qs).
  { unfold cleaned. now rewrite drop_nan_idem. }
  exists (empirical_estimate (cleaned data use_abs)), (empirical_estimate sampleH),
         l, m, u, ((u - l) / 6).
  split.
  { rewrite test55_fast, Hqs. destruct qs; [congruence | reflexivity]. }
  split.
  { rewrite histogramm_fast. fold sampleH. cbv zeta.
    destruct sampleH eqn:E; [|reflexivity].
    simpl in HdH. destruct qs; [congruence | discriminate]. }
  unfold empirical_estimate, empirical_sigma. cbn [lsl median usl sigma_equiv].
  rewrite <- !(np_nanquantile_drop_nan (cleaned data use_abs)),
          <- !(np_nanquantile_drop_nan sampleH),
          <- (np_nanmedian_drop_nan (cleaned data use_abs)),
          <- (np_nanmedian_drop_nan sampleH), Hd55, HdH, Hl, Hm, Hu,
          sigma_of_bounds by lra.
  repeat (split; [reflexivity || assumption || lra|]).
  apply Qle_shift_div_l; lra.
Qed.
End SampleRange.

Lemma fast_estimate_within_sample_range_witness :
  Forall moderate_or_missing signed_values /\
  drop_nan signed_values <> [] /\
  within 1 3 (cleaned signed_values true) /\
  exists res55 resH (l m u s : Q),
    @Test55.get_robust_sigma_and_mu demo_libraries signed_values false true = Ok res55 /\
    @Histogramm.get_robust_sigma_and_mu demo_libraries signed_values false true = Ok resH /\
    lsl res55 = Some (Fin l) /\ lsl resH = Some (Fin l) /\
    median res55 = Some (Fin m) /\ median resH = Some (Fin m) /\
    usl res55 = Some (Fin u) /\ usl resH = Some (Fin u) /\
    sigma_equiv res55 = Some (Fin s) /\ sigma_equiv resH = Some (Fin s) /\
    1 <= l /\ l <= m /\ m <= u /\ u <= 3 /\ 0 <= s.
Proof.
  assert (H1 : Forall moderate_or_missing signed_values).
  { unfold signed_values. repeat constructor; vm_compute; discriminate. }
  assert (H2 : drop_nan signed_values <> []) by (unfold signed_values; simpl; discriminate).
  assert (H3 : within 1 3 (cleaned signed_values true)).
  { intros q Hq. vm_compute in Hq.
    destruct Hq as [H|[H|[H|[]]]]; injection H as <-; split; vm_compute; discriminate. }
  split; [exact H1|]. split; [exact H2|]. split; [exact H3|].
  exact (@fast_estimate_within_sample_range demo_libraries signed_values true 1 3 H1 H2 H3).
Defined.

(* ================================================================== *)
(** * The calls of spc_analysis *)

Lemma drop_nan_moderate_values (df : list row) :
  moderate_values df -> drop_nan (map value df) = map value df.
Proof.
  induction 1 as [|r df (q & Hq & _) _ IH]; [reflexivity|].
  simpl. rewrite Hq. simpl. now rewrite IH.
Qed.

Section DriverProperties.
Context {L : Libraries}.

(** X13.  The per-interval step of [spc_analysis] on a table whose values
    are real numbers of magnitude at most half the largest double.  With
    fewer than 10 rows nothing is computed.  Otherwise, when the step
    returns, the histogram has computed its indices (never the early
    return), and the trend has used a window of max(20, n div 10) rows and
    has (n - window + 4) div 5 points, the difference being 0 for a table
    shorter than the window: an interval of at most 20 rows gets an empty
    trend. *)
Theorem spc_interval_charts_on_real_values
    (interval_data : list row) (global_sigma_ref : float64) :
  moderate_values interval_data ->
  let n := length interval_data in
  let w := Nat.max 20 (n / 10) in
  ((n < 10)%nat -> spc_interval_charts interval_data global_sigma_ref = Ok None) /\
  ((10 <= n)%nat ->
   when_returned
     (fun r =>
        exists s m ss ms,
          r = Some (Some (s, m), (ss, ms, dates_at interval_data (py_range w n 5))) /\
          length ss = ((n - w + 4) / 5)%nat /\ length ms = ((n - w + 4) / 5)%nat /\
          ((n <= 20)%nat -> ss = [] /\ ms = [] /\ py_range w n 5 = []))
     (spc_interval_charts interval_data global_sigma_ref)).
Proof.
  intros Hreal n w. unfold spc_interval_charts. fold n. split.
  - intros Hlt. apply Nat.ltb_lt in Hlt. now rewrite Hlt.
  - intros Hge.
    replace (n <? 10)%nat with false by (symmetry; apply Nat.ltb_ge; exact Hge).
    pose proof (drop_nan_moderate_values Hreal) as Hraw.
    assert (Hlen : length (drop_nan (map value interval_data)) = n).
    { rewrite Hraw. apply length_map. }
    destruct (test55_snapshot_outcome interval_data global_sigma_ref false)
      as [[Hlt _] | [H5 [(e & He & ->) | (res & Hres)]]].
    + lia.
    + exact I.
    + destruct (test55_snapshot interval_data global_sigma_ref false H5 Hres) as (s & _ & ->).
      cbn [bind].
      destruct (@moderate_series_trend L interval_data global_sigma_ref w false Hreal)
        as [(ss & ms & Ht & Hss & Hms) _]; [lia|].
      fold n in Ht, Hss, Hms. fold w. rewrite Ht. cbn [bind when_returned].
      do 4 eexists. split; [reflexivity|]. split; [exact Hss|]. split; [exact Hms|].
      intros H20.
      assert (E : ((n - w + 4) / 5 = 0)%nat).
      { replace (n - w)%nat with 0%nat by lia. reflexivity. }
      rewrite E in Hss, Hms.
      repeat split; [now apply length_zero_iff_nil | now apply length_zero_iff_nil |].
      apply py_range_nil. lia.
Qed.
End DriverProperties.

Lemma spc_interval_charts_on_real_values_witness :
  moderate_values (series sixteen_values) /\
  ((length (series sixteen_values) < 10)%nat ->
   @spc_interval_charts demo_libraries (series sixteen_values) (Fin 1) = Ok None) /\
  ((10 <= length (series sixteen_values))%nat ->
   when_returned
     (fun r =>
        exists s m ss ms,
          r = Some (Some (s, m),
                    (ss, ms,
                     dates_at (series sixteen_values)
                       (py_range (Nat.max 20 (length (series sixteen_values) / 10))
                                 (length (series sixteen_values)) 5))) /\
          length ss = ((length (series sixteen_values)
                        - Nat.max 20 (length (series sixteen_values) / 10) + 4) / 5)%nat /\
          length ms = ((length (series sixteen_values)
                        - Nat.max 20 (length (series sixteen_values) / 10) + 4) / 5)%nat /\
          ((length (series sixteen_values) <= 20)%nat ->
           ss = [] /\ ms = [] /\
           py_range (Nat.max 20 (length (series sixteen_values) / 10))
                    (length (series sixteen_values)) 5 = []))
     (@spc_interval_charts demo_libraries (series sixteen_values) (Fin 1))).
Proof.
  assert (H : moderate_values (series sixteen_values)).
  { repeat constructor; eexists; (split; [reflexivity | vm_compute; discriminate]). }
  split; [exact H|].
  exact (@spc_interval_charts_on_real_values demo_libraries (series sixteen_values) (Fin 1) H).
Defined.

Example spc_interval_charts_of_sixteen :
  exists s m,
    @spc_interval_charts demo_libraries (series sixteen_values) (Fin 1) =
    Ok (Some (Some (s, m), ([], [], []))).
Proof. do 2 eexists. vm_compute. reflexivity. Qed.

Section GlobalReference.
Context {L : Libraries}.

(** X14.  The global sigma reference of [spc_analysis].  Reading
    ['sigma_equiv'] never raises KeyError, also on a table with no value at
    all, where the reference is not-a-number: the call raises only what the
    fitter raises, and the fitter runs only on more than 10 present values.
    With 1 to 10 present values the reference is the empirical
    (usl - lsl) / 6 of the present values; with more it is that of the
    fitted family's quantiles. *)
Theorem spc_global_sigma_ref_never_key_error (values : list float64) :
  match spc_global_sigma_ref values with
  | Ok s =>
      (drop_nan values = [] -> s = NaN) /\
      ((0 < length (drop_nan values) <= 10)%nat -> s = empirical_sigma (drop_nan values)) /\
      ((10 < length (drop_nan values))%nat ->
       exists name ps,
         Fitter_get_best (drop_nan values) = Ok (name, ps) /\
         s = fdiv (fsub (ppf name ps q_high) (ppf name ps q_low)) (Fin 6))
  | Raises e =>
      (10 < length (drop_nan values))%nat /\
      Fitter_get_best (drop_nan values) = Raises e
  end.
Proof.
  unfold spc_global_sigma_ref, Test55.get_robust_sigma_and_mu.
  cbn [andb].
  destruct (Nat.ltb_spec 10 (length (drop_nan values))) as [Hlt|Hge].
  - destruct (Fitter_get_best (drop_nan values)) as [[name ps]|e]; cbn.
    + split; [intros E; rewrite E in Hlt; simpl in Hlt; lia|].
      split; [lia|]. intros _. exists name, ps. split; reflexivity.
    + split; [exact Hlt | reflexivity].
  - destruct (drop_nan values) as [|x xs] eqn:E; cbn.
    + split; [reflexivity|]. split; simpl; lia.
    + split; [discriminate|]. split; [reflexivity|]. simpl in Hge |- *. lia.
Qed.
End GlobalReference.
